(** * HorovodPytorch/01_TrainPyTorchModel.py: the job descriptor and the
      command sequence of the Batch AI training notebook

    The notebook reads its settings from a [.env] store, derives the
    process count and the fake-data flag, builds the dictionary [jobs_dict],
    writes it to [job.json] and drives the [az] command line tool through a
    fixed list of shell escapes.

    The embedding follows the notebook cell by cell:
    - Python values of the settings ([pyval]) with [str()], truthiness and
      the [*] operator, which raises [TypeError] on operands it does not
      accept and [OverflowError] on a repetition beyond the index range;
    - the parameters cell ([parameters_cell]) over the [.env] store and the
      process environment, both finite maps;
    - the descriptor ([jobs_dict]) as a nested Python object ([pyobj]);
    - the run of the notebook ([notebook]) in a small monad that logs the
      shell commands and file writes in order and stops at the first
      exception;
    - the JSON text of the descriptor ([Json.dumps]) and its parser
      ([Json.loads]).

    Settings are [None], booleans, integers and strings; floating point
    numbers are left out. Strings are sequences of code points below 256. *)

From Stdlib Require Import ZArith String Ascii List Bool Lia.
From Stdlib Require Import DecimalString DecimalZ.
From stdpp Require Import gmap strings.
Import ListNotations.

Local Open Scope string_scope.

(* Let [simpl] unfold string concatenation on literal prefixes. *)
#[local] Arguments String.append !_ _ / : simpl nomatch.

(** ** Python values *)

Module Py.

(** Exceptions are identified by the name of their class. *)
Inductive exn : Type := Exn (cls : string).

Definition TypeError : exn := Exn "TypeError".
Definition OverflowError : exn := Exn "OverflowError".

Inductive result (A : Type) : Type :=
| Ok (a : A)
| Raise (e : exn).
Arguments Ok {A} a.
Arguments Raise {A} e.

(** The values a setting can hold: [get_key] yields [None] or a [str];
    the literals of the parameters cell add [bool]; counts are [int]. *)
Inductive pyval : Type :=
| PNone
| PBool (b : bool)
| PInt (z : Z)
| PStr (s : string).

(** [str(int)]: decimal digits, with a leading minus sign. *)
Definition str_of_Z (z : Z) : string := NilZero.string_of_int (Z.to_int z).

(** [str(v)], which is also what an empty format spec ([f"{v}"],
    ['{}'.format(v)]) and IPython's [$v] expansion produce. *)
Definition str (v : pyval) : string :=
  match v with
  | PNone => "None"
  | PBool true => "True"
  | PBool false => "False"
  | PInt z => str_of_Z z
  | PStr s => s
  end.

(** Truth value of [v] in a condition. *)
Definition truthy (v : pyval) : bool :=
  match v with
  | PNone => false
  | PBool b => b
  | PInt z => negb (z =? 0)%Z
  | PStr EmptyString => false
  | PStr (String _ _) => true
  end.

(** [bool] is a subclass of [int]. *)
Definition as_int (v : pyval) : option Z :=
  match v with
  | PBool b => Some (Z.b2z b)
  | PInt z => Some z
  | _ => None
  end.

Fixpoint repeat_nat (s : string) (n : nat) : string :=
  match n with
  | O => EmptyString
  | S k => s ++ repeat_nat s k
  end.

(** [s * n]: [n] copies of [s], none when [n <= 0]. *)
Definition repeat_str (s : string) (n : Z) : string := repeat_nat s (Z.to_nat n).

(** The largest index and length of a sequence, on a 64-bit interpreter. *)
Definition ssize_max : Z := 2 ^ 63 - 1.

(** [s * n] as the interpreter carries it out: the count has to fit an
    index, and the length of the result too, or [OverflowError] is raised.
    Within these bounds the repetition is taken to fit in memory; a machine
    that cannot hold the result raises [MemoryError] instead. *)
Definition repeat_checked (s : string) (n : Z) : result pyval :=
  if (n <? - ssize_max - 1)%Z || (ssize_max <? n)%Z then Raise OverflowError
  else if (ssize_max <? Z.of_nat (String.length s) * n)%Z then Raise OverflowError
  else Ok (PStr (repeat_str s n)).

(** [a * b]. Numbers multiply, a sequence times a number repeats the
    sequence, everything else raises [TypeError]. *)
Definition mul (a b : pyval) : result pyval :=
  match a, b with
  | PStr s, _ =>
      match as_int b with
      | Some n => repeat_checked s n
      | None => Raise TypeError
      end
  | _, PStr s =>
      match as_int a with
      | Some n => repeat_checked s n
      | None => Raise TypeError
      end
  | _, _ =>
      match as_int a, as_int b with
      | Some x, Some y => Ok (PInt (x * y))
      | _, _ => Raise TypeError
      end
  end.

(** Nested objects: the dictionary and list literals of the notebook.
    A dictionary keeps its keys in insertion order. *)
#[local] Unset Elimination Schemes.
Inductive pyobj : Type :=
| Atom (v : pyval)
| PList (items : list pyobj)
| PDict (members : list (string * pyobj)).
#[local] Set Elimination Schemes.

(** Induction over nested objects, with the hypothesis for every item
    of a list and every value of a dictionary. *)
Section PyobjInduction.

Variable P : pyobj -> Prop.
Hypothesis P_atom : forall v, P (Atom v).
Hypothesis P_list : forall items, Forall P items -> P (PList items).
Hypothesis P_dict :
  forall members, Forall (fun kv => P (snd kv)) members -> P (PDict members).

Fixpoint pyobj_ind (o : pyobj) : P o :=
  match o with
  | Atom v => P_atom v
  | PList items =>
      P_list items
        ((fix all (l : list pyobj) : Forall P l :=
            match l with
            | [] => @List.Forall_nil _ P
            | x :: rest => @List.Forall_cons _ P x rest (pyobj_ind x) (all rest)
            end) items)
  | PDict members =>
      P_dict members
        ((fix all (l : list (string * pyobj)) : Forall (fun kv => P (snd kv)) l :=
            match l with
            | [] => @List.Forall_nil _ _
            | kv :: rest => @List.Forall_cons _ _ kv rest (pyobj_ind (snd kv)) (all rest)
            end) members)
  end.

End PyobjInduction.

(** [d[k]] on a dictionary. *)
Fixpoint assoc (k : string) (members : list (string * pyobj)) : option pyobj :=
  match members with
  | [] => None
  | (k', v) :: rest => if String.eqb k k' then Some v else assoc k rest
  end.

Definition getitem (o : pyobj) (k : string) : option pyobj :=
  match o with
  | PDict members => assoc k members
  | _ => None
  end.

End Py.

Import Py.

(** ** Text utilities *)

Module Text.

(** [s] without its prefix [p], when it has it. *)
Fixpoint drop_prefix (p s : string) : option string :=
  match p, s with
  | EmptyString, _ => Some s
  | String a p', String b s' => if Ascii.eqb a b then drop_prefix p' s' else None
  | String _ _, EmptyString => None
  end.

Definition starts_with (p s : string) : bool :=
  match drop_prefix p s with
  | Some _ => true
  | None => false
  end.

(** Number of positions of [s] at which [pat] occurs. *)
Fixpoint occurrences (pat s : string) : nat :=
  match s with
  | EmptyString => 0
  | String _ rest => (if starts_with pat s then 1 else 0) + occurrences pat rest
  end.

Definition contains (pat s : string) : bool := negb (occurrences pat s =? 0)%nat.

(** Space, tab, line feed, carriage return. *)
Definition is_space (c : ascii) : bool :=
  let n := N_of_ascii c in
  ((n =? 32) || (n =? 9) || (n =? 10) || (n =? 13))%N.

(** The words of a text, split at white space; [acc] is the word being
    read. A shell splits a command line like this only when the line has no
    character special to it (see [az_argv]). *)
Fixpoint words_from (s acc : string) : list string :=
  match s with
  | EmptyString =>
      match acc with
      | EmptyString => []
      | String _ _ => [acc]
      end
  | String c rest =>
      if is_space c then
        match acc with
        | EmptyString => words_from rest EmptyString
        | String _ _ => acc :: words_from rest EmptyString
        end
      else words_from rest (acc ++ String c EmptyString)
  end.

Definition words (s : string) : list string := words_from s EmptyString.

Fixpoint all_chars (f : ascii -> bool) (s : string) : bool :=
  match s with
  | EmptyString => true
  | String c rest => f c && all_chars f rest
  end.

(** Characters that a POSIX shell leaves as they are inside a word:
    letters, digits and [_ - . / : = @ + ,]. Quotes, [$], [#], [;],
    parentheses and the like are not among them. *)
Definition is_shell_safe (c : ascii) : bool :=
  let n := N_of_ascii c in
  (((48 <=? n) && (n <=? 57)) || ((65 <=? n) && (n <=? 90))
   || ((97 <=? n) && (n <=? 122))
   || (n =? 95) || (n =? 45) || (n =? 46) || (n =? 47) || (n =? 58)
   || (n =? 61) || (n =? 64) || (n =? 43) || (n =? 44))%N.

(** The same, or a space. *)
Definition is_shell_plain (c : ascii) : bool :=
  is_shell_safe c || (N_of_ascii c =? 32)%N.

(** The characters of a printed integer. *)
Definition is_numeric (c : ascii) : bool :=
  let n := N_of_ascii c in
  (((48 <=? n) && (n <=? 57)) || (n =? 45))%N.

(** Letters, digits and the underscore: the characters of a variable name. *)
Definition is_ident_char (c : ascii) : bool :=
  let n := N_of_ascii c in
  (((48 <=? n) && (n <=? 57)) || ((65 <=? n) && (n <=? 90))
   || ((97 <=? n) && (n <=? 122)) || (n =? 95))%N.

Fixpoint take_ident (s : string) : string :=
  match s with
  | String c rest => if is_ident_char c then String c (take_ident rest) else EmptyString
  | EmptyString => EmptyString
  end.

(** The names that follow each occurrence of [marker] in [s]. *)
Fixpoint refs_after (marker s : string) : list string :=
  match s with
  | EmptyString => []
  | String _ rest =>
      match drop_prefix marker s with
      | Some r => take_ident r :: refs_after marker rest
      | None => refs_after marker rest
      end
  end.

(** The word that follows the first word [flag]. *)
Fixpoint argument_of (flag : string) (ws : list string) : option string :=
  match ws with
  | [] => None
  | w :: rest =>
      if String.eqb w flag
      then match rest with
           | v :: _ => Some v
           | [] => None
           end
      else argument_of flag rest
  end.

End Text.

Import Text.

(** ** JSON text: [json.dump] and [json.load] *)

Module Json.

Definition dquote : ascii := "034"%char.
Definition backslash : ascii := "\"%char.

Definition hex_char (n : N) : ascii :=
  if (n <? 10)%N then ascii_of_N (48 + n) else ascii_of_N (87 + n).

(** One character of a string literal: the quote and the backslash are
    escaped, and so is everything outside the printable ASCII range. *)
Definition escape_char (c : ascii) : string :=
  let n := N_of_ascii c in
  if Ascii.eqb c dquote then String backslash (String dquote EmptyString)
  else if Ascii.eqb c backslash then String backslash (String backslash EmptyString)
  else if (n =? 10)%N then "\n"
  else if (n =? 13)%N then "\r"
  else if (n =? 9)%N then "\t"
  else if (n =? 8)%N then "\b"
  else if (n =? 12)%N then "\f"
  else if ((n <? 32) || (126 <? n))%N
       then "\u00" ++ String (hex_char (n / 16)) (String (hex_char (n mod 16)) EmptyString)
  else String c EmptyString.

Fixpoint escape (s : string) : string :=
  match s with
  | EmptyString => EmptyString
  | String c rest => escape_char c ++ escape rest
  end.

Definition quote (s : string) : string :=
  String dquote (escape s ++ String dquote EmptyString).

(** [sep.join(f(x) for x in l)] *)
Fixpoint join_with {A : Type} (f : A -> string) (sep : string) (l : list A) : string :=
  match l with
  | [] => EmptyString
  | [x] => f x
  | x :: rest => f x ++ sep ++ join_with f sep rest
  end.

(** One member of an object: the key, a colon, the value. *)
Definition member_with (f : pyobj -> string) (kv : string * pyobj) : string :=
  quote (fst kv) ++ ": " ++ f (snd kv).

(** [json.dumps(o)] with the default separators. *)
Fixpoint dumps (o : pyobj) : string :=
  match o with
  | Atom PNone => "null"
  | Atom (PBool true) => "true"
  | Atom (PBool false) => "false"
  | Atom (PInt z) => str_of_Z z
  | Atom (PStr s) => quote s
  | PList items => "[" ++ join_with dumps ", " items ++ "]"
  | PDict members => "{" ++ join_with (member_with dumps) ", " members ++ "}"
  end.

Fixpoint skip_ws (s : string) : string :=
  match s with
  | String c rest => if is_space c then skip_ws rest else s
  | EmptyString => EmptyString
  end.

Definition hex_val (c : ascii) : option N :=
  let n := N_of_ascii c in
  if ((48 <=? n) && (n <=? 57))%N then Some (n - 48)%N
  else if ((97 <=? n) && (n <=? 102))%N then Some (n - 87)%N
  else if ((65 <=? n) && (n <=? 70))%N then Some (n - 55)%N
  else None.

Definition hex4 (a b c d : ascii) : option N :=
  match hex_val a, hex_val b, hex_val c, hex_val d with
  | Some x, Some y, Some z, Some w => Some (((x * 16 + y) * 16 + z) * 16 + w)%N
  | _, _, _, _ => None
  end.

(** The character a one-letter escape stands for. *)
Definition unescape (e : ascii) : option ascii :=
  let n := N_of_ascii e in
  if Ascii.eqb e dquote then Some dquote
  else if Ascii.eqb e backslash then Some backslash
  else if (n =? 47)%N then Some e
  else if (n =? 110)%N then Some (ascii_of_N 10)
  else if (n =? 114)%N then Some (ascii_of_N 13)
  else if (n =? 116)%N then Some (ascii_of_N 9)
  else if (n =? 98)%N then Some (ascii_of_N 8)
  else if (n =? 102)%N then Some (ascii_of_N 12)
  else None.

Definition cons_char (c : ascii) (r : option (string * string)) : option (string * string) :=
  match r with
  | Some (s, rest) => Some (String c s, rest)
  | None => None
  end.

(** The body of a string literal, after its opening quote, up to and
    including the closing quote. Characters are code points below 256. *)
Fixpoint parse_chars (s : string) : option (string * string) :=
  match s with
  | EmptyString => None
  | String c rest =>
      if Ascii.eqb c dquote then Some (EmptyString, rest)
      else if Ascii.eqb c backslash then
        match rest with
        | String e rest1 =>
            if (N_of_ascii e =? 117)%N then
              match rest1 with
              | String h1 (String h2 (String h3 (String h4 rest2))) =>
                  match hex4 h1 h2 h3 h4 with
                  | Some n =>
                      if (n <? 256)%N then cons_char (ascii_of_N n) (parse_chars rest2)
                      else None
                  | None => None
                  end
              | _ => None
              end
            else
              match unescape e with
              | Some c' => cons_char c' (parse_chars rest1)
              | None => None
              end
        | EmptyString => None
        end
      else if (N_of_ascii c <? 32)%N then None
      else cons_char c (parse_chars rest)
  end.

Definition digit_of_char (c : ascii) : option (Decimal.uint -> Decimal.uint) :=
  match N_of_ascii c with
  | 48 => Some Decimal.D0 | 49 => Some Decimal.D1 | 50 => Some Decimal.D2
  | 51 => Some Decimal.D3 | 52 => Some Decimal.D4 | 53 => Some Decimal.D5
  | 54 => Some Decimal.D6 | 55 => Some Decimal.D7 | 56 => Some Decimal.D8
  | 57 => Some Decimal.D9
  | _ => None
  end%N.

(** The longest run of decimal digits at the head of [s]. *)
Fixpoint read_digits (s : string) : Decimal.uint * string :=
  match s with
  | String c rest =>
      match digit_of_char c with
      | Some d => let (u, r) := read_digits rest in (d u, r)
      | None => (Decimal.Nil, s)
      end
  | EmptyString => (Decimal.Nil, EmptyString)
  end.

Definition parse_nat (s : string) : option (Z * string) :=
  match read_digits s with
  | (Decimal.Nil, _) => None
  | (u, rest) => Some (Z.of_uint u, rest)
  end.

(** The text after the character [c], when [c] is the first character of
    [s] that is not white space. *)
Definition expect (c : ascii) (s : string) : option string :=
  match skip_ws s with
  | String c' rest => if Ascii.eqb c' c then Some rest else None
  | EmptyString => None
  end.

(** A string that does not go on with a digit. *)
Definition no_digit_head (s : string) : Prop :=
  match s with
  | String c _ => digit_of_char c = None
  | EmptyString => True
  end.

(** One JSON value at the head of [s], and the text after it. The parser
    descends one level of [fuel] per nested value and per list element. *)
Fixpoint parse_value (fuel : nat) (s : string) {struct fuel} : option (pyobj * string) :=
  match fuel with
  | O => None
  | S fuel' =>
      match skip_ws s with
      | EmptyString => None
      | String c rest =>
          if Ascii.eqb c "[" then
            match expect "]" rest with
            | Some r => Some (PList [], r)
            | None =>
                match parse_items fuel' rest with
                | Some (items, r) => Some (PList items, r)
                | None => None
                end
            end
          else if Ascii.eqb c "{" then
            match expect "}" rest with
            | Some r => Some (PDict [], r)
            | None =>
                match parse_members fuel' rest with
                | Some (members, r) => Some (PDict members, r)
                | None => None
                end
            end
          else if Ascii.eqb c dquote then
            match parse_chars rest with
            | Some (str, r) => Some (Atom (PStr str), r)
            | None => None
            end
          else if Ascii.eqb c "-" then
            match parse_nat rest with
            | Some (n, r) => Some (Atom (PInt (- n)), r)
            | None => None
            end
          else
            match drop_prefix "null" (String c rest) with
            | Some r => Some (Atom PNone, r)
            | None =>
            match drop_prefix "true" (String c rest) with
            | Some r => Some (Atom (PBool true), r)
            | None =>
            match drop_prefix "false" (String c rest) with
            | Some r => Some (Atom (PBool false), r)
            | None =>
            match parse_nat (String c rest) with
            | Some (n, r) => Some (Atom (PInt n), r)
            | None => None
            end end end end
      end
  end
with parse_items (fuel : nat) (s : string) {struct fuel} : option (list pyobj * string) :=
  match fuel with
  | O => None
  | S fuel' =>
      match parse_value fuel' s with
      | Some (v, r) =>
          match expect "," r with
          | Some r' =>
              match parse_items fuel' r' with
              | Some (vs, r'') => Some (v :: vs, r'')
              | None => None
              end
          | None =>
              match expect "]" r with
              | Some r' => Some ([v], r')
              | None => None
              end
          end
      | None => None
      end
  end
with parse_members (fuel : nat) (s : string) {struct fuel}
  : option (list (string * pyobj) * string) :=
  match fuel with
  | O => None
  | S fuel' =>
      match expect dquote s with
      | Some r0 =>
          match parse_chars r0 with
          | Some (k, r1) =>
              match expect ":" r1 with
              | Some r2 =>
                  match parse_value fuel' r2 with
                  | Some (v, r3) =>
                      match expect "," r3 with
                      | Some r4 =>
                          match parse_members fuel' r4 with
                          | Some (kvs, r5) => Some ((k, v) :: kvs, r5)
                          | None => None
                          end
                      | None =>
                          match expect "}" r3 with
                          | Some r4 => Some ([(k, v)], r4)
                          | None => None
                          end
                      end
                  | None => None
                  end
              | None => None
              end
          | None => None
          end
      | None => None
      end
  end.

(** A value that the parser reads back from its serialized form, with
    any text after it and any fuel that covers its length. *)
Definition reads_back (v : pyobj) : Prop :=
  forall (fuel : nat) (rest : string),
    (String.length (dumps v) <= fuel)%nat -> no_digit_head rest ->
    parse_value fuel (dumps v ++ rest) = Some (v, rest).

(** [json.loads(s)]: one value, then nothing but white space. *)
Definition loads (s : string) : option pyobj :=
  match parse_value (String.length s) s with
  | Some (v, rest) =>
      match skip_ws rest with
      | EmptyString => Some v
      | String _ _ => None
      end
  | None => None
  end.

End Json.

(** ** The configuration sources *)

(** The [.env] file found by [dotenv_for()] as the mapping [get_key] reads,
    and [os.environ]. *)
Abbreviation dotenv := (gmap string string).
Abbreviation environ := (gmap string string).

(** [get_key(dotenv_path, key)]: the value stored under [key], [None] when
    there is none. The value is always a [str]. *)
Definition get_key (store : dotenv) (key : string) : pyval :=
  match store !! key with
  | Some v => PStr v
  | None => PNone
  end.

(** [os.getenv(key, default)]. *)
Definition getenv (env : environ) (key default : string) : string :=
  match env !! key with
  | Some v => v
  | None => default
  end.

(** ** The parameters cell (lines 38 to 49) *)

Record params : Type := {
  GROUP_NAME : pyval;
  FILE_SHARE_NAME : pyval;
  WORKSPACE : pyval;
  NUM_NODES : pyval;
  CLUSTER_NAME : pyval;
  GPU_TYPE : pyval;
  PROCESSES_PER_NODE : pyval;
  USE_FAKE : pyval;
  DOCKERHUB : pyval
}.

(** [EXPERIMENT = f"distributed_pytorch_{GPU_TYPE}"] *)
Definition EXPERIMENT (p : params) : string :=
  "distributed_pytorch_" ++ str (GPU_TYPE p).

Definition parameters_cell (store : dotenv) (env : environ) : params := {|
  GROUP_NAME := get_key store "GROUP_NAME";
  FILE_SHARE_NAME := get_key store "FILE_SHARE_NAME";
  WORKSPACE := get_key store "WORKSPACE";
  NUM_NODES := get_key store "NUM_NODES";
  CLUSTER_NAME := get_key store "CLUSTER_NAME";
  GPU_TYPE := get_key store "GPU_TYPE";
  PROCESSES_PER_NODE := get_key store "PROCESSES_PER_NODE";
  USE_FAKE := PBool false;
  DOCKERHUB := PStr (getenv env "DOCKER_REPOSITORY" "masalvar")
|}.

(** ** Derived settings (lines 52 and 53) *)

(** [FAKE='-env FAKE=True' if USE_FAKE else ''] *)
Definition FAKE (p : params) : string :=
  if truthy (USE_FAKE p) then "-env FAKE=True" else EmptyString.

(** [TOTAL_PROCESSES = PROCESSES_PER_NODE * NUM_NODES] *)
Definition TOTAL_PROCESSES (p : params) : result pyval :=
  mul (PROCESSES_PER_NODE p) (NUM_NODES p).

(** ** The job descriptor (lines 74 to 120) *)

(** The f-string of [commandLine]. A backslash at the end of a source line
    joins it to the next one, whose indentation stays in the string. *)
Definition commandLine (total_processes : pyval) (fake : string) : string :=
  "echo $AZ_BATCH_HOST_LIST; " ++
  "    cat $AZ_BATCHAI_MPI_HOST_FILE; " ++
  "    mpirun -np " ++ str total_processes ++ " --hostfile $AZ_BATCHAI_MPI_HOST_FILE " ++
  "    -bind-to none -map-by slot " ++
  "    -x NCCL_DEBUG=INFO -x LD_LIBRARY_PATH " ++
  "    -mca btl_tcp_if_include eth0 " ++
  "    -x NCCL_SOCKET_IFNAME=eth0 " ++
  "    -mca btl ^openib " ++
  "    -x NCCL_IB_DISABLE=1 " ++
  "    -x DISTRIBUTED=True " ++
  "    -x AZ_BATCHAI_INPUT_TRAIN " ++
  "    -x AZ_BATCHAI_INPUT_TEST " ++
  "    --allow-run-as-root " ++
  "      " ++ fake ++ " " ++
  "      python -u $AZ_BATCHAI_INPUT_SCRIPTS/imagenet_pytorch_horovod.py".

Definition jobs_dict (p : params) (total_processes : pyval) : pyobj :=
  PDict [
    ("$schema", Atom (PStr "https://raw.githubusercontent.com/Azure/BatchAI/master/schemas/2017-09-01-preview/job.json"));
    ("properties", PDict [
      ("nodeCount", Atom (NUM_NODES p));
      ("customToolkitSettings", PDict [
        ("commandLine", Atom (PStr (commandLine total_processes (FAKE p))))
      ]);
      ("stdOutErrPathPrefix", Atom (PStr "$AZ_BATCHAI_MOUNT_ROOT/extfs"));
      ("inputDirectories", PList [
        PDict [("id", Atom (PStr "SCRIPTS"));
               ("path", Atom (PStr "$AZ_BATCHAI_MOUNT_ROOT/extfs/scripts"))];
        PDict [("id", Atom (PStr "TRAIN"));
               ("path", Atom (PStr "$AZ_BATCHAI_MOUNT_ROOT/nfs/imagenet"))];
        PDict [("id", Atom (PStr "TEST"));
               ("path", Atom (PStr "$AZ_BATCHAI_MOUNT_ROOT/nfs/imagenet"))]
      ]);
      ("outputDirectories", PList [
        PDict [("id", Atom (PStr "MODEL"));
               ("pathPrefix", Atom (PStr "$AZ_BATCHAI_MOUNT_ROOT/extfs"));
               ("pathSuffix", Atom (PStr "Models"))]
      ]);
      ("containerSettings", PDict [
        ("imageSourceRegistry", PDict [
          ("image", Atom (PStr (str (DOCKERHUB p) ++ "/caia-horovod-pytorch")))
        ])
      ])
    ])
  ].


(** ** Running the notebook *)

(** What a run does to the outside world, in order: the [!] shell escapes
    (after IPython has expanded the [$NAME] variables) and the files
    written. *)
Inductive event : Type :=
| Shell (cmd : string)
| FileWrite (name content : string).

(** A cell sequence: it extends the log and either continues with a value
    or stops with the exception raised. *)
Definition M (A : Type) : Type := list event -> list event * result A.

Definition ret {A : Type} (a : A) : M A := fun log => (log, Ok a).

Definition bind {A B : Type} (m : M A) (k : A -> M B) : M B :=
  fun log =>
    match m log with
    | (log', Ok a) => k a log'
    | (log', Raise e) => (log', Raise e)
    end.

Definition lift {A : Type} (r : result A) : M A := fun log => (log, r).

Definition emit (e : event) : M unit := fun log => ((log ++ [e])%list, Ok tt).

Notation "'let*' x := m 'in' k" := (bind m (fun x => k))
  (at level 10, x name, m at level 100, k at level 200).
Notation "m >> k" := (bind m (fun _ => k))
  (at level 95, right associativity).

Definition sh (cmd : string) : M unit := emit (Shell cmd).

(** Modelled from the spec: [write_json_to_file] of [common/utils.py], which
    is not among the sources. The descriptor is serialized as a JSON
    document into the named file. *)
Definition write_json_to_file (json_dict : pyobj) (filename : string) : M unit :=
  emit (FileWrite filename (Json.dumps json_dict)).

(** ['pytorch-horovod-{}'.format(NUM_NODES*PROCESSES_PER_NODE)] *)
Definition JOB_NAME (p : params) : result string :=
  match mul (NUM_NODES p) (PROCESSES_PER_NODE p) with
  | Ok v => Ok ("pytorch-horovod-" ++ str v)
  | Raise e => Raise e
  end.

(** The cells after the parameters cell, lines 52 to 168. *)
Definition notebook (p : params) : M unit :=
  let* total_processes := lift (TOTAL_PROCESSES p) in
  sh ("az batchai experiment create -n " ++ EXPERIMENT p ++ " -g " ++ str (GROUP_NAME p)
        ++ " -w " ++ str (WORKSPACE p)) >>
  sh ("az storage file upload --share-name " ++ str (FILE_SHARE_NAME p)
        ++ " --source src/imagenet_pytorch_horovod.py --path scripts") >>
  sh ("az storage file upload --share-name " ++ str (FILE_SHARE_NAME p)
        ++ " --source ../common/timer.py --path scripts") >>
  sh ("az storage file upload --share-name " ++ str (FILE_SHARE_NAME p)
        ++ " --source cluster_config/docker.service --path scripts") >>
  sh ("az storage file upload --share-name " ++ str (FILE_SHARE_NAME p)
        ++ " --source cluster_config/nodeprep.sh --path scripts") >>
  sh ("az batchai cluster list -w " ++ str (WORKSPACE p) ++ " -o table") >>
  write_json_to_file (jobs_dict p total_processes) "job.json" >>
  let* job_name := lift (JOB_NAME p) in
  sh ("az batchai job create -n " ++ job_name ++ " --cluster " ++ str (CLUSTER_NAME p)
        ++ " -w " ++ str (WORKSPACE p) ++ " -e " ++ EXPERIMENT p ++ " -f job.json") >>
  sh ("az batchai job list -w " ++ str (WORKSPACE p) ++ " -e " ++ EXPERIMENT p ++ " -o table") >>
  sh ("az batchai job file list -w " ++ str (WORKSPACE p) ++ " -e " ++ EXPERIMENT p
        ++ " --j " ++ job_name ++ " --output-directory-id stdouterr") >>
  sh ("az batchai job file stream -w " ++ str (WORKSPACE p) ++ " -e " ++ EXPERIMENT p
        ++ " --j " ++ job_name ++ " --output-directory-id stdouterr -f stdout.txt") >>
  sh ("az batchai job file stream -w " ++ str (WORKSPACE p) ++ " -e " ++ EXPERIMENT p
        ++ " --j " ++ job_name ++ " --output-directory-id stdouterr -f stderr.txt") >>
  sh ("az batchai job delete -w " ++ str (WORKSPACE p) ++ " -e " ++ EXPERIMENT p
        ++ " --name " ++ job_name ++ " -y") >>
  sh "az configure --defaults group=''" >>
  sh "az configure --defaults location=''" >>
  sh ("az batchai cluster delete -w " ++ str (WORKSPACE p) ++ " --name " ++ str (CLUSTER_NAME p)
        ++ " -g " ++ str (GROUP_NAME p) ++ " -y") >>
  sh ("az batchai experiment delete -w " ++ str (WORKSPACE p) ++ " --name " ++ EXPERIMENT p
        ++ " -g " ++ str (GROUP_NAME p) ++ " -y") >>
  sh ("az batchai workspace delete -n " ++ str (WORKSPACE p) ++ " -g " ++ str (GROUP_NAME p)
        ++ " -y") >>
  sh ("az group delete --name " ++ str (GROUP_NAME p) ++ " -y").

(** A run from the settings [p], on an empty log. *)
Definition run (p : params) : list event * result unit := notebook p [].

(** The notebook as it stands: the parameters cell, then the rest. *)
Definition run_notebook (store : dotenv) (env : environ) : list event * result unit :=
  run (parameters_cell store env).

(** The settings of the tutorial's text: two nodes with four processes each
    on V100 machines, as numbers. *)
Definition tutorial_params : params := {|
  GROUP_NAME := PStr "batchrg";
  FILE_SHARE_NAME := PStr "share";
  WORKSPACE := PStr "workspace";
  NUM_NODES := PInt 2;
  CLUSTER_NAME := PStr "cluster";
  GPU_TYPE := PStr "V100";
  PROCESSES_PER_NODE := PInt 4;
  USE_FAKE := PBool false;
  DOCKERHUB := PStr "masalvar"
|}.

(** The tutorial's settings with the fake-data flag switched on. *)
Definition tutorial_params_fake : params := {|
  GROUP_NAME := PStr "batchrg";
  FILE_SHARE_NAME := PStr "share";
  WORKSPACE := PStr "workspace";
  NUM_NODES := PInt 2;
  CLUSTER_NAME := PStr "cluster";
  GPU_TYPE := PStr "V100";
  PROCESSES_PER_NODE := PInt 4;
  USE_FAKE := PBool true;
  DOCKERHUB := PStr "masalvar"
|}.

(** The tutorial's settings on one node, with [PROCESSES_PER_NODE] given as
    a text that goes on after the number and names an input directory. *)
Definition params_extra_input : params := {|
  GROUP_NAME := PStr "batchrg";
  FILE_SHARE_NAME := PStr "share";
  WORKSPACE := PStr "workspace";
  NUM_NODES := PInt 1;
  CLUSTER_NAME := PStr "cluster";
  GPU_TYPE := PStr "V100";
  PROCESSES_PER_NODE := PStr "4 -x $AZ_BATCHAI_INPUT_VALID";
  USE_FAKE := PBool false;
  DOCKERHUB := PStr "masalvar"
|}.

(** The same, with a text that goes on with the fake-data flag. *)
Definition params_extra_flag : params := {|
  GROUP_NAME := PStr "batchrg";
  FILE_SHARE_NAME := PStr "share";
  WORKSPACE := PStr "workspace";
  NUM_NODES := PInt 1;
  CLUSTER_NAME := PStr "cluster";
  GPU_TYPE := PStr "V100";
  PROCESSES_PER_NODE := PStr "4 -env FAKE=True";
  USE_FAKE := PBool false;
  DOCKERHUB := PStr "masalvar"
|}.

(** The same settings as a [.env] store holds them. *)
Definition tutorial_store : dotenv :=
  <["GROUP_NAME" := "batchrg"]> (<["FILE_SHARE_NAME" := "share"]> (<["WORKSPACE" := "workspace"]>
  (<["NUM_NODES" := "2"]> (<["CLUSTER_NAME" := "cluster"]> (<["GPU_TYPE" := "V100"]>
  (<["PROCESSES_PER_NODE" := "4"]> ∅)))))).

(** ** Reading the descriptor *)

(** [o[k1][k2]...] *)
Fixpoint get_path (o : pyobj) (path : list string) : option pyobj :=
  match path with
  | [] => Some o
  | k :: rest =>
      match getitem o k with
      | Some o' => get_path o' rest
      | None => None
      end
  end.

Definition str_at (o : pyobj) (path : list string) : option string :=
  match get_path o path with
  | Some (Atom (PStr s)) => Some s
  | _ => None
  end.

Definition descriptor_nodeCount (d : pyobj) : option pyobj :=
  get_path d ["properties"; "nodeCount"].

Definition descriptor_commandLine (d : pyobj) : option string :=
  str_at d ["properties"; "customToolkitSettings"; "commandLine"].

Definition descriptor_image (d : pyobj) : option string :=
  str_at d ["properties"; "containerSettings"; "imageSourceRegistry"; "image"].

Fixpoint ids_of (records : list pyobj) : list string :=
  match records with
  | [] => []
  | r :: rest =>
      match str_at r ["id"] with
      | Some i => i :: ids_of rest
      | None => ids_of rest
      end
  end.

(** The [id] fields of the records of [inputDirectories]. *)
Definition descriptor_input_ids (d : pyobj) : list string :=
  match get_path d ["properties"; "inputDirectories"] with
  | Some (PList records) => ids_of records
  | _ => []
  end.

(** The input directories a command line names, with or without the
    dollar sign of a shell expansion. *)
Definition input_refs (cmd : string) : list string :=
  refs_after "AZ_BATCHAI_INPUT_" cmd.

Definition expanded_input_refs (cmd : string) : list string :=
  refs_after "$AZ_BATCHAI_INPUT_" cmd.

(** The two segments of [commandLine] around the process count. *)
Definition np_head : string :=
  "echo $AZ_BATCH_HOST_LIST;     cat $AZ_BATCHAI_MPI_HOST_FILE;     mpirun -np ".

Definition np_tail (fake : string) : string :=
  " --hostfile $AZ_BATCHAI_MPI_HOST_FILE " ++
  "    -bind-to none -map-by slot " ++
  "    -x NCCL_DEBUG=INFO -x LD_LIBRARY_PATH " ++
  "    -mca btl_tcp_if_include eth0 " ++
  "    -x NCCL_SOCKET_IFNAME=eth0 " ++
  "    -mca btl ^openib " ++
  "    -x NCCL_IB_DISABLE=1 " ++
  "    -x DISTRIBUTED=True " ++
  "    -x AZ_BATCHAI_INPUT_TRAIN " ++
  "    -x AZ_BATCHAI_INPUT_TEST " ++
  "    --allow-run-as-root " ++
  "      " ++ fake ++ " " ++
  "      python -u $AZ_BATCHAI_INPUT_SCRIPTS/imagenet_pytorch_horovod.py".

(** The two segments of [commandLine] around the fake-data slot. *)
Definition fake_head (total_processes : pyval) : string :=
  np_head ++ str total_processes ++
  " --hostfile $AZ_BATCHAI_MPI_HOST_FILE " ++
  "    -bind-to none -map-by slot " ++
  "    -x NCCL_DEBUG=INFO -x LD_LIBRARY_PATH " ++
  "    -mca btl_tcp_if_include eth0 " ++
  "    -x NCCL_SOCKET_IFNAME=eth0 " ++
  "    -mca btl ^openib " ++
  "    -x NCCL_IB_DISABLE=1 " ++
  "    -x DISTRIBUTED=True " ++
  "    -x AZ_BATCHAI_INPUT_TRAIN " ++
  "    -x AZ_BATCHAI_INPUT_TEST " ++
  "    --allow-run-as-root " ++
  "      ".

Definition fake_tail : string :=
  "       python -u $AZ_BATCHAI_INPUT_SCRIPTS/imagenet_pytorch_horovod.py".

(** ** Reading the log *)

(** The content last written to the file [name]. *)
Fixpoint written (name : string) (log : list event) : option string :=
  match log with
  | [] => None
  | e :: rest =>
      match written name rest with
      | Some c => Some c
      | None =>
          match e with
          | FileWrite n c => if String.eqb n name then Some c else None
          | Shell _ => None
          end
      end
  end.

Inductive step : Type :=
| Upload | WriteDescriptor | Submit | Poll | Stream | Delete | Other.

(** The lifecycle step an event belongs to, by the [az] subcommand. *)
Definition step_of (e : event) : step :=
  match e with
  | FileWrite _ _ => WriteDescriptor
  | Shell cmd =>
      if starts_with "az storage file upload " cmd then Upload
      else if starts_with "az batchai job create " cmd then Submit
      else if starts_with "az batchai job list " cmd
              || starts_with "az batchai job file list " cmd then Poll
      else if starts_with "az batchai job file stream " cmd then Stream
      else if starts_with "az batchai job delete " cmd
              || starts_with "az batchai cluster delete " cmd
              || starts_with "az batchai experiment delete " cmd
              || starts_with "az batchai workspace delete " cmd
              || starts_with "az group delete " cmd then Delete
      else Other
  end.

(** Every [a] step of the log comes before every [b] step. *)
Definition precedes (a b : step) (log : list event) : Prop :=
  forall (i j : nat) (x y : event),
    nth_error log i = Some x -> nth_error log j = Some y ->
    step_of x = a -> step_of y = b -> (i < j)%nat.

(** The arguments that the shell of a [!] line hands to [az]: the words
    of the line, when the line starts with [az] and has no character special
    to the shell. For any other line the arguments are not modelled. *)
Definition az_argv (cmd : string) : option (list string) :=
  if starts_with "az " cmd && all_chars is_shell_plain cmd
  then Some (words cmd)
  else None.

(** [az] asks the operator to confirm a deletion unless it receives [-y]
    or [--yes]; nothing is said of a line whose arguments are not modelled. *)
Definition asks_confirmation (e : event) : option bool :=
  match e with
  | Shell cmd =>
      match az_argv cmd with
      | Some args =>
          Some (negb (existsb (String.eqb "-y") args || existsb (String.eqb "--yes") args))
      | None => None
      end
  | FileWrite _ _ => Some false
  end.

(** The steps of a complete run, in order. *)
Definition lifecycle : list step :=
  [Other; Upload; Upload; Upload; Upload; Other; WriteDescriptor; Submit; Poll; Poll;
   Stream; Stream; Delete; Other; Other; Delete; Delete; Delete; Delete].

(** ** Reading the commands *)

(** The shell commands of a log, in order. *)
Fixpoint shell_commands (log : list event) : list string :=
  match log with
  | [] => []
  | Shell cmd :: rest => cmd :: shell_commands rest
  | FileWrite _ _ :: rest => shell_commands rest
  end.

(** The files of a log with their content, in order. *)
Fixpoint files_written (log : list event) : list (string * string) :=
  match log with
  | [] => []
  | Shell _ :: rest => files_written rest
  | FileWrite name content :: rest => (name, content) :: files_written rest
  end.

(** A setting that the shell hands on as one unchanged argument: not
    empty and made of characters that are not special to the shell. The
    notebook quotes nothing. *)
Definition is_word (s : string) : bool :=
  match s with
  | EmptyString => false
  | String _ _ => all_chars is_shell_safe s
  end.

(** The argument lists of the [az batchai job] commands. *)
Fixpoint job_argvs (log : list event) : list (option (list string)) :=
  match log with
  | [] => []
  | Shell cmd :: rest =>
      if starts_with "az batchai job " cmd
      then az_argv cmd :: job_argvs rest
      else job_argvs rest
  | FileWrite _ _ :: rest => job_argvs rest
  end.

(** The argument lists of the [az storage file upload] commands. *)
Fixpoint upload_argvs (log : list event) : list (option (list string)) :=
  match log with
  | [] => []
  | Shell cmd :: rest =>
      if starts_with "az storage file upload " cmd
      then az_argv cmd :: upload_argvs rest
      else upload_argvs rest
  | FileWrite _ _ :: rest => upload_argvs rest
  end.

(** The [path] of the record of [records] whose [id] is [id]. *)
Fixpoint path_of (id : string) (records : list pyobj) : option string :=
  match records with
  | [] => None
  | r :: rest =>
      match str_at r ["id"] with
      | Some i => if String.eqb i id then str_at r ["path"] else path_of id rest
      | None => path_of id rest
      end
  end.

Definition descriptor_input_path (d : pyobj) (id : string) : option string :=
  match get_path d ["properties"; "inputDirectories"] with
  | Some (PList records) => path_of id records
  | _ => None
  end.

(** The argument lists of the commands on the experiment, the cluster, the
    workspace and the resource group. *)
Fixpoint resource_argvs (log : list event) : list (option (list string)) :=
  match log with
  | [] => []
  | Shell cmd :: rest =>
      if starts_with "az batchai experiment " cmd
         || starts_with "az batchai cluster " cmd
         || starts_with "az batchai workspace " cmd
         || starts_with "az group " cmd
      then az_argv cmd :: resource_argvs rest
      else resource_argvs rest
  | FileWrite _ _ :: rest => resource_argvs rest
  end.

(** The kind of resource a delete command removes. *)
Definition deleted_resource (cmd : string) : option string :=
  if starts_with "az batchai job delete " cmd then Some "job"
  else if starts_with "az batchai cluster delete " cmd then Some "cluster"
  else if starts_with "az batchai experiment delete " cmd then Some "experiment"
  else if starts_with "az batchai workspace delete " cmd then Some "workspace"
  else if starts_with "az group delete " cmd then Some "group"
  else None.

Fixpoint deletions (cmds : list string) : list string :=
  match cmds with
  | [] => []
  | cmd :: rest =>
      match deleted_resource cmd with
      | Some r => r :: deletions rest
      | None => deletions rest
      end
  end.

(** The text after the last slash of a path; [acc] is the text read since
    the last slash. *)
Fixpoint basename_from (path acc : string) : string :=
  match path with
  | EmptyString => acc
  | String c rest =>
      if Ascii.eqb c "/" then basename_from rest EmptyString
      else basename_from rest (acc ++ String c EmptyString)
  end.

Definition basename (path : string) : string := basename_from path EmptyString.

(** * Properties *)

(** ** Strings *)

Lemma append_assoc (a b c : string) : (a ++ b) ++ c = a ++ (b ++ c).
Proof. induction a as [|x a IH]; simpl; [reflexivity | now f_equal]. Qed.

Lemma append_nil_r (a : string) : a ++ EmptyString = a.
Proof. induction a as [|x a IH]; simpl; [reflexivity | now f_equal]. Qed.

Lemma length_append (a b : string) :
  String.length (a ++ b) = (String.length a + String.length b)%nat.
Proof. induction a as [|x a IH]; simpl; [reflexivity | now f_equal]. Qed.

(** ** The [*] operator *)

Lemma mul_comm (a b : pyval) : mul a b = mul b a.
Proof.
  destruct a as [|x|x|x], b as [|y|y|y]; simpl; try reflexivity;
    now rewrite Z.mul_comm.
Qed.

Lemma mul_int (x y : Z) : mul (PInt x) (PInt y) = Ok (PInt (x * y)).
Proof. reflexivity. Qed.

Lemma mul_None_l (b : pyval) : mul PNone b = Raise TypeError.
Proof. destruct b; reflexivity. Qed.

Lemma mul_None_r (a : pyval) : mul a PNone = Raise TypeError.
Proof. rewrite mul_comm. apply mul_None_l. Qed.

Lemma mul_str_str (s t : string) : mul (PStr s) (PStr t) = Raise TypeError.
Proof. reflexivity. Qed.

(** ** What the parameters cell yields *)

Lemma get_key_cases (store : dotenv) (key : string) :
  get_key store key = PNone \/ exists s, get_key store key = PStr s.
Proof. unfold get_key. destruct (store !! key) as [v|]; eauto. Qed.

Lemma get_key_absent (store : dotenv) (key : string) :
  store !! key = None -> get_key store key = PNone.
Proof. unfold get_key. now intros ->. Qed.

(** No [.env] store gets the notebook past line 53: both counts are read
    as [None] or as text, and [*] accepts neither pair. *)
Lemma TOTAL_PROCESSES_of_store (store : dotenv) (env : environ) :
  TOTAL_PROCESSES (parameters_cell store env) = Raise TypeError.
Proof.
  unfold TOTAL_PROCESSES; simpl.
  destruct (get_key_cases store "PROCESSES_PER_NODE") as [-> | [s ->]];
    destruct (get_key_cases store "NUM_NODES") as [-> | [t ->]]; reflexivity.
Qed.

Lemma run_stops_without_total (p : params) (e : exn) :
  TOTAL_PROCESSES p = Raise e -> run p = ([], Raise e).
Proof. intros H. unfold run, notebook, bind, lift. now rewrite H. Qed.

Lemma run_notebook_stops (store : dotenv) (env : environ) :
  run_notebook store env = ([], Raise TypeError).
Proof. apply run_stops_without_total, TOTAL_PROCESSES_of_store. Qed.

Lemma TOTAL_PROCESSES_int (p : params) (n m : Z) :
  NUM_NODES p = PInt n -> PROCESSES_PER_NODE p = PInt m ->
  TOTAL_PROCESSES p = Ok (PInt (m * n)).
Proof. unfold TOTAL_PROCESSES. now intros -> ->. Qed.

(** A run that gets its two products writes the descriptor and issues all
    the commands. *)
Lemma run_complete (p : params) (tp : pyval) (name : string) :
  TOTAL_PROCESSES p = Ok tp -> JOB_NAME p = Ok name ->
  snd (run p) = Ok tt
  /\ written "job.json" (fst (run p)) = Some (Json.dumps (jobs_dict p tp))
  /\ map step_of (fst (run p)) = lifecycle.
Proof.
  intros Ht Hj. unfold run, notebook, bind, lift. rewrite Ht, Hj.
  repeat split.
Qed.

Lemma JOB_NAME_of_total (p : params) (tp : pyval) :
  TOTAL_PROCESSES p = Ok tp -> JOB_NAME p = Ok ("pytorch-horovod-" ++ str tp).
Proof.
  unfold TOTAL_PROCESSES, JOB_NAME. rewrite (mul_comm (NUM_NODES p)). now intros ->.
Qed.

(** C1. With the counts supplied in the [.env] store as [NUM_NODES=2] and
    [PROCESSES_PER_NODE=4], [get_key] hands both over as text, the product of
    line 53 raises [TypeError], and the run ends there: no command is issued
    and no descriptor is written. *)
Theorem counts_from_store_raise_TypeError :
  NUM_NODES (parameters_cell tutorial_store ∅) = PStr "2"
  /\ PROCESSES_PER_NODE (parameters_cell tutorial_store ∅) = PStr "4"
  /\ TOTAL_PROCESSES (parameters_cell tutorial_store ∅) = Raise TypeError
  /\ run_notebook tutorial_store ∅ = ([], Raise TypeError).
Proof. repeat split; vm_compute; reflexivity. Qed.

(** ** Printed integers *)

Lemma string_of_uint_numeric (u : Decimal.uint) :
  all_chars is_numeric (NilEmpty.string_of_uint u) = true.
Proof. induction u; simpl; auto. Qed.

Lemma str_of_Z_numeric (z : Z) : all_chars is_numeric (str_of_Z z) = true.
Proof.
  unfold str_of_Z, NilZero.string_of_int, NilZero.string_of_uint.
  destruct (Z.to_int z) as [u | u]; destruct u; simpl;
    try reflexivity; apply string_of_uint_numeric.
Qed.

Lemma str_of_Z_nonempty (z : Z) : str_of_Z z <> EmptyString.
Proof.
  unfold str_of_Z, NilZero.string_of_int, NilZero.string_of_uint.
  destruct (Z.to_int z) as [u | u]; destruct u; simpl; discriminate.
Qed.

Lemma numeric_not_space (s : string) :
  all_chars is_numeric s = true -> all_chars (fun c => negb (is_space c)) s = true.
Proof.
  induction s as [|c s IH]; simpl; [reflexivity |].
  intros [Hc Hs]%andb_true_iff. rewrite (IH Hs), andb_true_r.
  destruct c as [[] [] [] [] [] [] [] []]; try discriminate Hc; reflexivity.
Qed.

(** ** Words *)

Lemma words_from_space (u acc v : string) :
  words_from (u ++ String " " v) acc
  = (words_from u acc ++ words_from v EmptyString)%list.
Proof.
  revert acc. induction u as [|c u IH]; intros acc; simpl.
  - destruct acc; reflexivity.
  - destruct (is_space c).
    + destruct acc; simpl; now rewrite IH.
    + apply IH.
Qed.

Lemma words_from_word (u acc : string) :
  all_chars (fun c => negb (is_space c)) u = true ->
  acc ++ u <> EmptyString ->
  words_from u acc = [acc ++ u].
Proof.
  revert acc. induction u as [|c u IH]; intros acc Hu Hne; simpl in *.
  - rewrite append_nil_r in *. destruct acc; [congruence | reflexivity].
  - apply andb_true_iff in Hu as [Hc Hu]. apply negb_true_iff in Hc. rewrite Hc.
    rewrite IH; [now rewrite append_assoc | assumption |].
    rewrite append_assoc. simpl. destruct acc; discriminate.
Qed.

Lemma words_number (z : Z) : words (str_of_Z z) = [str_of_Z z].
Proof.
  unfold words. apply words_from_word.
  - apply numeric_not_space, str_of_Z_numeric.
  - apply str_of_Z_nonempty.
Qed.

(** ** The shape of [commandLine] *)

Lemma commandLine_np (tp : pyval) (fake : string) :
  commandLine tp fake = np_head ++ str tp ++ np_tail fake.
Proof. reflexivity. Qed.

Lemma commandLine_fake (tp : pyval) (fake : string) :
  commandLine tp fake = fake_head tp ++ fake ++ fake_tail.
Proof.
  unfold commandLine, fake_head, np_head. simpl.
  rewrite !append_assoc. reflexivity.
Qed.

Lemma np_tail_space (fake : string) : exists t, np_tail fake = String " " t.
Proof. eexists. unfold np_tail. simpl. reflexivity. Qed.

Lemma np_argument_int (n : Z) (fake : string) :
  argument_of "-np" (words (commandLine (PInt n) fake)) = Some (str_of_Z n).
Proof.
  rewrite commandLine_np. destruct (np_tail_space fake) as [t ->].
  change np_head with
    ("echo $AZ_BATCH_HOST_LIST;     cat $AZ_BATCHAI_MPI_HOST_FILE;     mpirun -np"
       ++ String " " EmptyString).
  rewrite append_assoc. simpl (String " " EmptyString ++ _).
  unfold words. rewrite !words_from_space.
  fold (words (str_of_Z n)). simpl (str (PInt n)). rewrite words_number. reflexivity.
Qed.

(** ** The job name and the process count *)

(** C10. Whenever line 53 yields a process count, the run writes to
    [job.json] the descriptor built from that count, whose [commandLine] has
    the count's text right after [-np], and submits the job under the name
    that line 124 builds from the product taken the other way round, which
    is [pytorch-horovod-] followed by the same text; for a number, the word
    that follows [-np] in the descriptor is the number of the job name. *)
Theorem job_name_agrees_with_np (p : params) (tp : pyval) :
  TOTAL_PROCESSES p = Ok tp ->
  exists cmd : string,
    written "job.json" (fst (run p)) = Some (Json.dumps (jobs_dict p tp))
    /\ descriptor_commandLine (jobs_dict p tp) = Some cmd
    /\ cmd = np_head ++ str tp ++ np_tail (FAKE p)
    /\ mul (NUM_NODES p) (PROCESSES_PER_NODE p) = Ok tp
    /\ JOB_NAME p = Ok ("pytorch-horovod-" ++ str tp)
    /\ In (Shell ("az batchai job create -n " ++ ("pytorch-horovod-" ++ str tp)
                    ++ " --cluster " ++ str (CLUSTER_NAME p)
                    ++ " -w " ++ str (WORKSPACE p) ++ " -e " ++ EXPERIMENT p
                    ++ " -f job.json"))
          (fst (run p))
    /\ (forall n : Z, tp = PInt n ->
          argument_of "-np" (words cmd) = Some (str_of_Z n)
          /\ JOB_NAME p = Ok ("pytorch-horovod-" ++ str_of_Z n)).
Proof.
  intros Ht. pose proof (JOB_NAME_of_total p _ Ht) as Hj.
  exists (commandLine tp (FAKE p)).
  split; [| split; [reflexivity | split; [apply commandLine_np | split; [| split; [| split]]]]].
  - exact (proj1 (proj2 (run_complete p tp _ Ht Hj))).
  - rewrite mul_comm. exact Ht.
  - exact Hj.
  - unfold run, notebook, bind, lift, sh, write_json_to_file, emit.
    rewrite Ht, Hj. cbn -[Json.dumps]. do 7 right. left. reflexivity.
  - intros n ->. split; [apply np_argument_int | exact Hj].
Qed.

Lemma job_name_agrees_with_np_tutorial :
  exists cmd : string,
    written "job.json" (fst (run tutorial_params))
    = Some (Json.dumps (jobs_dict tutorial_params (PInt 8)))
    /\ descriptor_commandLine (jobs_dict tutorial_params (PInt 8)) = Some cmd
    /\ argument_of "-np" (words cmd) = Some "8"
    /\ JOB_NAME tutorial_params = Ok "pytorch-horovod-8"
    /\ In (Shell ("az batchai job create -n pytorch-horovod-8 --cluster cluster"
                    ++ " -w workspace -e distributed_pytorch_V100 -f job.json"))
          (fst (run tutorial_params)).
Proof.
  destruct (job_name_agrees_with_np tutorial_params (PInt 8) eq_refl)
    as (cmd & Hw & Hd & _ & _ & Hj & Hs & Hn).
  exists cmd.
  split; [exact Hw | split; [exact Hd | split; [exact (proj1 (Hn 8%Z eq_refl)) |]]].
  split; [exact Hj | exact Hs].
Defined.

(** ** The scenario of the tutorial *)

(** With the scenario's values as numbers in the variables, whatever the
    other settings, the run completes and writes to [job.json] a descriptor
    whose [nodeCount] is 2 and whose [commandLine] contains [mpirun -np 8]
    and nowhere [FAKE=True]. *)
Lemma scenario_with_integer_counts (g f w c dh : pyval) :
  let p := {| GROUP_NAME := g; FILE_SHARE_NAME := f; WORKSPACE := w;
              NUM_NODES := PInt 2; CLUSTER_NAME := c; GPU_TYPE := PStr "V100";
              PROCESSES_PER_NODE := PInt 4; USE_FAKE := PBool false;
              DOCKERHUB := dh |} in
  exists (d : pyobj) (cmd : string),
    snd (run p) = Ok tt
    /\ written "job.json" (fst (run p)) = Some (Json.dumps d)
    /\ d = jobs_dict p (PInt 8)
    /\ descriptor_nodeCount d = Some (Atom (PInt 2))
    /\ descriptor_commandLine d = Some cmd
    /\ contains "mpirun -np 8" cmd = true
    /\ contains "FAKE=True" cmd = false.
Proof.
  intros p. exists (jobs_dict p (PInt 8)), (commandLine (PInt 8) EmptyString).
  destruct (run_complete p (PInt 8) "pytorch-horovod-8" eq_refl eq_refl) as (Hr & Hw & _).
  repeat split; try assumption; vm_compute; reflexivity.
Qed.

(** C5. With [NUM_NODES=2], [PROCESSES_PER_NODE=4] and [GPU_TYPE=V100] in
    the [.env] store, whatever else the store and the environment hold, the
    parameters cell yields the two counts as the texts [2] and [4], with
    [USE_FAKE = False]; the product of line 53 raises [TypeError] and the
    notebook stops there: no descriptor is written, so none with a
    [nodeCount] of 2 or with [mpirun -np 8], and no command is issued. *)
Theorem scenario_from_store_writes_no_descriptor (store : dotenv) (env : environ) :
  store !! "NUM_NODES" = Some "2" ->
  store !! "PROCESSES_PER_NODE" = Some "4" ->
  store !! "GPU_TYPE" = Some "V100" ->
  let p := parameters_cell store env in
  NUM_NODES p = PStr "2"
  /\ PROCESSES_PER_NODE p = PStr "4"
  /\ GPU_TYPE p = PStr "V100"
  /\ USE_FAKE p = PBool false
  /\ TOTAL_PROCESSES p = Raise TypeError
  /\ snd (run_notebook store env) = Raise TypeError
  /\ written "job.json" (fst (run_notebook store env)) = None
  /\ shell_commands (fst (run_notebook store env)) = [].
Proof.
  intros Hn Hp Hg p. rewrite run_notebook_stops.
  unfold p, parameters_cell, get_key, TOTAL_PROCESSES. cbn [NUM_NODES PROCESSES_PER_NODE
    GPU_TYPE USE_FAKE]. rewrite Hn, Hp, Hg. repeat split.
Qed.

Lemma scenario_from_store_writes_no_descriptor_tutorial :
  TOTAL_PROCESSES (parameters_cell tutorial_store ∅) = Raise TypeError
  /\ snd (run_notebook tutorial_store ∅) = Raise TypeError
  /\ written "job.json" (fst (run_notebook tutorial_store ∅)) = None.
Proof.
  destruct (scenario_from_store_writes_no_descriptor tutorial_store ∅ eq_refl eq_refl eq_refl)
    as (_ & _ & _ & _ & Ht & Hr & Hw & _).
  split; [exact Ht | split; [exact Hr | exact Hw]].
Defined.

(** ** The container image *)

(** C9. In the descriptor of any run whose [DOCKERHUB] is the one the
    parameters cell computes, the image is the value of the environment
    variable [DOCKER_REPOSITORY], or [masalvar] when it is unset, followed
    by the fixed text [/caia-horovod-pytorch]. *)
Theorem image_is_repository_then_fixed_name
  (store : dotenv) (env : environ) (p : params) (tp : pyval) :
  DOCKERHUB p = DOCKERHUB (parameters_cell store env) ->
  descriptor_image (jobs_dict p tp)
  = Some (match env !! "DOCKER_REPOSITORY" with
          | Some repository => repository
          | None => "masalvar"
          end ++ "/caia-horovod-pytorch").
Proof.
  intros H. unfold descriptor_image, str_at, jobs_dict. simpl. rewrite H. reflexivity.
Qed.

Lemma image_is_repository_then_fixed_name_tutorial :
  descriptor_image (jobs_dict tutorial_params (PInt 8)) = Some "masalvar/caia-horovod-pytorch"
  /\ descriptor_image
       (jobs_dict (parameters_cell tutorial_store (<["DOCKER_REPOSITORY" := "contoso"]> ∅))
                  (PInt 8))
     = Some "contoso/caia-horovod-pytorch".
Proof.
  split.
  - exact (image_is_repository_then_fixed_name tutorial_store ∅ tutorial_params (PInt 8) eq_refl).
  - exact (image_is_repository_then_fixed_name tutorial_store
             (<["DOCKER_REPOSITORY" := "contoso"]> ∅) _ (PInt 8) eq_refl).
Defined.

(** ** Missing settings *)

Lemma run_absent_count (p : params) :
  NUM_NODES p = PNone \/ PROCESSES_PER_NODE p = PNone -> run p = ([], Raise TypeError).
Proof.
  intros H. apply run_stops_without_total. unfold TOTAL_PROCESSES.
  destruct H as [-> | ->]; [apply mul_None_r | apply mul_None_l].
Qed.

(** The same for a key that the [.env] store does not hold. *)
Lemma run_notebook_absent_count (store : dotenv) (env : environ) :
  store !! "NUM_NODES" = None \/ store !! "PROCESSES_PER_NODE" = None ->
  run_notebook store env = ([], Raise TypeError).
Proof.
  intros H. apply run_absent_count. simpl.
  destruct H as [H | H]; [left | right]; now apply get_key_absent.
Qed.

(** An absent [GPU_TYPE] stops nothing: it is printed as [None]. *)
Lemma absent_GPU_TYPE_runs :
  let p := {| GROUP_NAME := PStr "batchrg"; FILE_SHARE_NAME := PStr "share";
              WORKSPACE := PStr "workspace"; NUM_NODES := PInt 2;
              CLUSTER_NAME := PStr "cluster"; GPU_TYPE := PNone;
              PROCESSES_PER_NODE := PInt 4; USE_FAKE := PBool false;
              DOCKERHUB := PStr "masalvar" |} in
  snd (run p) = Ok tt
  /\ EXPERIMENT p = "distributed_pytorch_None"
  /\ written "job.json" (fst (run p)) = Some (Json.dumps (jobs_dict p (PInt 8))).
Proof. repeat split. Qed.

(** C2, as stated, fails: with every key absent the notebook stops with
    Python's [TypeError], raised by the product of line 53, and not with a
    configuration error. *)
Lemma empty_store_raises_TypeError_not_ConfigurationError :
  (∅ : dotenv) !! "NUM_NODES" = None
  /\ (∅ : dotenv) !! "PROCESSES_PER_NODE" = None
  /\ (∅ : dotenv) !! "GPU_TYPE" = None
  /\ (∅ : environ) !! "DOCKER_REPOSITORY" = None
  /\ run_notebook ∅ ∅ = ([], Raise (Exn "TypeError"))
  /\ snd (run_notebook ∅ ∅) <> Raise (Exn "ConfigurationError").
Proof.
  repeat split; try reflexivity.
  rewrite run_notebook_stops. simpl. unfold TypeError. intros H. discriminate H.
Qed.

(** C2, amended. When [NUM_NODES] or [PROCESSES_PER_NODE] is absent, that
    is [None], the run stops with [TypeError] before any command is issued
    and writes no descriptor file. *)
Theorem absent_count_stops_with_TypeError (p : params) :
  NUM_NODES p = PNone \/ PROCESSES_PER_NODE p = PNone ->
  snd (run p) = Raise TypeError
  /\ fst (run p) = []
  /\ written "job.json" (fst (run p)) = None.
Proof. intros H. rewrite (run_absent_count p H). repeat split. Qed.

Lemma absent_count_stops_with_TypeError_empty_store :
  NUM_NODES (parameters_cell ∅ ∅) = PNone
  /\ snd (run_notebook ∅ ∅) = Raise TypeError
  /\ written "job.json" (fst (run_notebook ∅ ∅)) = None.
Proof.
  assert (H : NUM_NODES (parameters_cell ∅ ∅) = PNone) by reflexivity.
  split; [exact H |].
  destruct (absent_count_stops_with_TypeError (parameters_cell ∅ ∅) (or_introl H))
    as (Hs & _ & Hw).
  split; [exact Hs | exact Hw].
Defined.

(** ** Searching a text with a printed integer inside *)

Section NumericGap.

(** A pattern whose second character cannot occur in a number, and a
    text [after] that does not start with that character. *)
Variables (a b : ascii) (pat : string) (after : string).
Hypothesis b_not_numeric : is_numeric b = false.
Hypothesis after_head : forall t, after <> String b t.

Lemma drop_prefix_numeric (ds : string) :
  all_chars is_numeric ds = true -> ds <> EmptyString ->
  drop_prefix (String a (String b pat)) (ds ++ after) = None.
Proof.
  intros Hds Hne. destruct ds as [|c ds]; [congruence |].
  simpl. destruct (Ascii.eqb a c); [| reflexivity].
  destruct ds as [|c' ds]; simpl.
  - destruct after as [|h t]; [reflexivity |].
    destruct (Ascii.eqb_spec b h) as [-> |]; [| reflexivity].
    now destruct (after_head t).
  - simpl in Hds. apply andb_true_iff in Hds as [_ [Hc' _]%andb_true_iff].
    destruct (Ascii.eqb_spec b c') as [-> |]; [congruence | reflexivity].
Qed.

Lemma occurrences_numeric (ds : string) :
  all_chars is_numeric ds = true ->
  occurrences (String a (String b pat)) (ds ++ after)
  = occurrences (String a (String b pat)) after.
Proof.
  induction ds as [|c ds IH]; intros Hds; [reflexivity |].
  change (String c ds ++ after) with (String c (ds ++ after)).
  cbn [occurrences]. unfold starts_with.
  change (String c (ds ++ after)) with (String c ds ++ after).
  rewrite drop_prefix_numeric by (assumption || discriminate).
  simpl in Hds. apply andb_true_iff in Hds as [_ Hds]. now rewrite IH.
Qed.

Lemma refs_after_numeric (ds : string) :
  all_chars is_numeric ds = true ->
  refs_after (String a (String b pat)) (ds ++ after)
  = refs_after (String a (String b pat)) after.
Proof.
  induction ds as [|c ds IH]; intros Hds; [reflexivity |].
  change (String c ds ++ after) with (String c (ds ++ after)).
  cbn [refs_after].
  change (String c (ds ++ after)) with (String c ds ++ after).
  rewrite drop_prefix_numeric by (assumption || discriminate).
  simpl in Hds. apply andb_true_iff in Hds as [_ Hds]. now rewrite IH.
Qed.

End NumericGap.

Lemma np_tail_head (fake : string) (b : ascii) :
  is_numeric b = false -> b <> " "%char -> forall t, np_tail fake <> String b t.
Proof.
  intros _ Hb t. destruct (np_tail_space fake) as [t' ->]. congruence.
Qed.

(** Occurrences of a pattern in [commandLine] with a number as process
    count are those in the text after the number, as long as none starts
    in the text before it. *)
Lemma occurrences_commandLine_int (a b : ascii) (pat : string) (n : Z) (fake : string) :
  is_numeric b = false -> b <> " "%char ->
  (forall rest, occurrences (String a (String b pat)) (np_head ++ rest)
                = occurrences (String a (String b pat)) rest) ->
  occurrences (String a (String b pat)) (commandLine (PInt n) fake)
  = occurrences (String a (String b pat)) (np_tail fake).
Proof.
  intros Hb Hsp Hhead. rewrite commandLine_np, Hhead. simpl (str _).
  apply occurrences_numeric; auto using np_tail_head, str_of_Z_numeric.
Qed.

Lemma refs_commandLine_int (a b : ascii) (pat : string) (n : Z) (fake : string) :
  is_numeric b = false -> b <> " "%char ->
  (forall rest, refs_after (String a (String b pat)) (np_head ++ rest)
                = refs_after (String a (String b pat)) rest) ->
  refs_after (String a (String b pat)) (commandLine (PInt n) fake)
  = refs_after (String a (String b pat)) (np_tail fake).
Proof.
  intros Hb Hsp Hhead. rewrite commandLine_np, Hhead. simpl (str _).
  apply refs_after_numeric; auto using np_tail_head, str_of_Z_numeric.
Qed.

Lemma occurrences_env_FAKE_int (n : Z) (fake : string) :
  occurrences "-env FAKE=True" (commandLine (PInt n) fake)
  = occurrences "-env FAKE=True" (np_tail fake).
Proof.
  apply occurrences_commandLine_int; [reflexivity | discriminate |].
  intros rest. reflexivity.
Qed.

Lemma occurrences_FAKE_int (n : Z) (fake : string) :
  occurrences "FAKE=True" (commandLine (PInt n) fake)
  = occurrences "FAKE=True" (np_tail fake).
Proof.
  apply occurrences_commandLine_int; [reflexivity | discriminate |].
  intros rest. reflexivity.
Qed.

Lemma FAKE_cases (p : params) :
  (truthy (USE_FAKE p) = true /\ FAKE p = "-env FAKE=True")
  \/ (truthy (USE_FAKE p) = false /\ FAKE p = EmptyString).
Proof. unfold FAKE. destruct (truthy (USE_FAKE p)); auto. Qed.

(** ** The fake-data flag *)

(** C8, as stated, fails: with [USE_FAKE] the [False] of the parameters
    cell, one node and [PROCESSES_PER_NODE] the text [4 -env FAKE=True], the
    product of line 53 is that text, the run completes, and the
    [commandLine] of the descriptor it writes holds [-env FAKE=True] once. *)
Lemma text_count_carries_fake_flag :
  exists (d : pyobj) (cmd : string),
    USE_FAKE params_extra_flag = USE_FAKE (parameters_cell tutorial_store ∅)
    /\ FAKE params_extra_flag = EmptyString
    /\ TOTAL_PROCESSES params_extra_flag = Ok (PStr "4 -env FAKE=True")
    /\ snd (run params_extra_flag) = Ok tt
    /\ written "job.json" (fst (run params_extra_flag)) = Some (Json.dumps d)
    /\ descriptor_commandLine d = Some cmd
    /\ occurrences "-env FAKE=True" cmd = 1%nat
    /\ contains "FAKE=True" cmd = true.
Proof.
  exists (jobs_dict params_extra_flag (PStr "4 -env FAKE=True")),
         (commandLine (PStr "4 -env FAKE=True") EmptyString).
  destruct (run_complete params_extra_flag (PStr "4 -env FAKE=True")
              "pytorch-horovod-4 -env FAKE=True" eq_refl eq_refl) as (Hr & Hw & _).
  repeat split; try assumption; vm_compute; reflexivity.
Qed.

(** C8, amended. [USE_FAKE] is the constant [False] of the parameters cell,
    so [FAKE] is empty; in the descriptor of any run that keeps this value,
    with a number as process count, [commandLine] has no occurrence of
    [-env FAKE=True], nor of [FAKE=True] alone. *)
Theorem fixed_USE_FAKE_keeps_flag_out
  (store : dotenv) (env : environ) (p : params) (n : Z) :
  USE_FAKE p = USE_FAKE (parameters_cell store env) ->
  FAKE p = EmptyString
  /\ exists cmd : string,
       descriptor_commandLine (jobs_dict p (PInt n)) = Some cmd
       /\ occurrences "-env FAKE=True" cmd = 0%nat
       /\ contains "FAKE=True" cmd = false.
Proof.
  intros H. simpl in H.
  assert (HF : FAKE p = EmptyString) by (unfold FAKE; now rewrite H).
  split; [exact HF |].
  exists (commandLine (PInt n) (FAKE p)). split; [reflexivity |].
  rewrite HF. unfold contains.
  rewrite occurrences_env_FAKE_int, occurrences_FAKE_int. split; reflexivity.
Qed.

Lemma fixed_USE_FAKE_keeps_flag_out_tutorial :
  FAKE tutorial_params = EmptyString
  /\ exists cmd : string,
       descriptor_commandLine (jobs_dict tutorial_params (PInt 8)) = Some cmd
       /\ occurrences "-env FAKE=True" cmd = 0%nat
       /\ contains "FAKE=True" cmd = false.
Proof.
  exact (fixed_USE_FAKE_keeps_flag_out tutorial_store ∅ tutorial_params 8%Z eq_refl).
Defined.

Lemma fake_head_space (tp : pyval) :
  exists x, fake_head tp = x ++ String " " EmptyString.
Proof.
  exists (np_head ++ str tp ++
    " --hostfile $AZ_BATCHAI_MPI_HOST_FILE     -bind-to none -map-by slot     -x NCCL_DEBUG=INFO -x LD_LIBRARY_PATH     -mca btl_tcp_if_include eth0     -x NCCL_SOCKET_IFNAME=eth0     -mca btl ^openib     -x NCCL_IB_DISABLE=1     -x DISTRIBUTED=True     -x AZ_BATCHAI_INPUT_TRAIN     -x AZ_BATCHAI_INPUT_TEST     --allow-run-as-root      ").
  unfold fake_head. rewrite !append_assoc. reflexivity.
Qed.

Lemma words_after_space (x y : string) :
  words ((x ++ String " " EmptyString) ++ y)
  = (words (x ++ String " " EmptyString) ++ words y)%list.
Proof.
  unfold words. rewrite append_assoc.
  change (String " " EmptyString ++ y) with (String " " y).
  rewrite !words_from_space. cbn [words_from]. now rewrite app_nil_r.
Qed.

Lemma words_before_space (x y : string) :
  words (x ++ String " " y) = (words x ++ words (String " " y))%list.
Proof. unfold words. rewrite words_from_space. reflexivity. Qed.

Lemma fake_tail_space : exists t, fake_tail = String " " t.
Proof. eexists. reflexivity. Qed.

(** Words on both sides of the fake-data slot are those of the two
    segments: the slot is surrounded by spaces. *)
Lemma words_commandLine_fake (tp : pyval) (fake : string) :
  words (commandLine tp fake)
  = (words (fake_head tp) ++ words fake ++ words fake_tail)%list.
Proof.
  rewrite commandLine_fake. destruct (fake_head_space tp) as [x ->].
  rewrite words_after_space. f_equal.
  destruct fake_tail_space as [t ->]. apply words_before_space.
Qed.

(** C4, as stated, fails: with the flag on, [commandLine] is not the
    command line of the flag off with something put at its end, neither as
    text nor as a list of words; it still ends with the script path. *)
Lemma fake_flag_is_not_appended :
  let off := commandLine (PInt 8) (FAKE tutorial_params) in
  let on := commandLine (PInt 8) (FAKE tutorial_params_fake) in
  ~ (exists extra : string, on = off ++ extra)
  /\ ~ (exists extra : list string, words on = (words off ++ extra)%list)
  /\ last (words on) = Some "$AZ_BATCHAI_INPUT_SCRIPTS/imagenet_pytorch_horovod.py".
Proof.
  split; [| split].
  - intros [extra H]. vm_compute in H. discriminate H.
  - intros [extra H]. vm_compute in H. discriminate H.
  - vm_compute. reflexivity.
Qed.

(** C4, amended. Switching [USE_FAKE] on changes [commandLine] only by
    inserting the text [-env FAKE=True], that is the two words [-env] and
    [FAKE=True], between the [mpirun] options and the final
    [python -u <script>]; the text and the words before and after it are
    those of the command line with the flag off, and with a number as
    process count the text occurs exactly once. *)
Theorem fake_flag_is_inserted_before_python (p q : params) (tp : pyval) :
  truthy (USE_FAKE p) = true -> truthy (USE_FAKE q) = false ->
  commandLine tp (FAKE p) = fake_head tp ++ "-env FAKE=True" ++ fake_tail
  /\ commandLine tp (FAKE q) = fake_head tp ++ fake_tail
  /\ words (commandLine tp (FAKE p))
     = (words (fake_head tp) ++ ["-env"; "FAKE=True"] ++ words fake_tail)%list
  /\ words (commandLine tp (FAKE q)) = (words (fake_head tp) ++ words fake_tail)%list
  /\ words fake_tail
     = ["python"; "-u"; "$AZ_BATCHAI_INPUT_SCRIPTS/imagenet_pytorch_horovod.py"]
  /\ (forall n : Z, tp = PInt n ->
        occurrences "-env FAKE=True" (commandLine tp (FAKE p)) = 1%nat
        /\ occurrences "-env FAKE=True" (commandLine tp (FAKE q)) = 0%nat).
Proof.
  intros Hp Hq.
  assert (HFp : FAKE p = "-env FAKE=True") by (unfold FAKE; now rewrite Hp).
  assert (HFq : FAKE q = EmptyString) by (unfold FAKE; now rewrite Hq).
  rewrite HFp, HFq. split; [| split; [| split; [| split; [| split]]]].
  - apply commandLine_fake.
  - rewrite commandLine_fake. reflexivity.
  - rewrite words_commandLine_fake. reflexivity.
  - rewrite words_commandLine_fake. reflexivity.
  - vm_compute. reflexivity.
  - intros n ->. rewrite !occurrences_env_FAKE_int. split; vm_compute; reflexivity.
Qed.

Lemma fake_flag_is_inserted_before_python_tutorial :
  words (commandLine (PInt 8) (FAKE tutorial_params_fake))
  = (words (fake_head (PInt 8)) ++ ["-env"; "FAKE=True"] ++ words fake_tail)%list
  /\ words (commandLine (PInt 8) (FAKE tutorial_params))
     = (words (fake_head (PInt 8)) ++ words fake_tail)%list
  /\ occurrences "-env FAKE=True" (commandLine (PInt 8) (FAKE tutorial_params_fake)) = 1%nat.
Proof.
  destruct (fake_flag_is_inserted_before_python tutorial_params_fake tutorial_params (PInt 8)
              eq_refl eq_refl) as (_ & _ & Hon & Hoff & _ & Hocc).
  split; [exact Hon | split; [exact Hoff | exact (proj1 (Hocc 8%Z eq_refl))]].
Defined.

(** ** Input directories *)

(** C6, as stated, fails: with one node and [PROCESSES_PER_NODE] the text
    [4 -x $AZ_BATCHAI_INPUT_VALID], the product of line 53 is that text, the
    run completes, and the [commandLine] of the descriptor it writes refers
    to [$AZ_BATCHAI_INPUT_VALID], while no record of [inputDirectories] has
    the [id] [VALID]. *)
Lemma text_count_references_undeclared_input :
  exists (d : pyobj) (cmd : string),
    TOTAL_PROCESSES params_extra_input = Ok (PStr "4 -x $AZ_BATCHAI_INPUT_VALID")
    /\ snd (run params_extra_input) = Ok tt
    /\ written "job.json" (fst (run params_extra_input)) = Some (Json.dumps d)
    /\ descriptor_commandLine d = Some cmd
    /\ expanded_input_refs cmd = ["VALID"; "SCRIPTS"]
    /\ descriptor_input_ids d = ["SCRIPTS"; "TRAIN"; "TEST"]
    /\ ~ (forall id : string,
            In id (expanded_input_refs cmd) -> In id (descriptor_input_ids d)).
Proof.
  exists (jobs_dict params_extra_input (PStr "4 -x $AZ_BATCHAI_INPUT_VALID")),
         (commandLine (PStr "4 -x $AZ_BATCHAI_INPUT_VALID") EmptyString).
  destruct (run_complete params_extra_input (PStr "4 -x $AZ_BATCHAI_INPUT_VALID")
              "pytorch-horovod-4 -x $AZ_BATCHAI_INPUT_VALID" eq_refl eq_refl)
    as (Hr & Hw & _).
  split; [reflexivity | split; [exact Hr | split; [exact Hw | split; [reflexivity |]]]].
  assert (He : expanded_input_refs (commandLine (PStr "4 -x $AZ_BATCHAI_INPUT_VALID") EmptyString)
               = ["VALID"; "SCRIPTS"]) by (vm_compute; reflexivity).
  split; [exact He | split; [reflexivity |]].
  intros H. specialize (H "VALID"). rewrite He in H.
  destruct (H (or_introl eq_refl)) as [E | [E | [E | []]]]; discriminate E.
Qed.

(** C6, amended. In the descriptor built with a number as process count, whatever
    the other settings, the input directories that [commandLine] names
    after [AZ_BATCHAI_INPUT_] are [TRAIN], [TEST] and [SCRIPTS] (the last one
    through a [$] expansion), and each is the [id] of a record of
    [inputDirectories]. *)
Theorem referenced_inputs_are_declared (p : params) (n : Z) :
  exists cmd : string,
    descriptor_commandLine (jobs_dict p (PInt n)) = Some cmd
    /\ expanded_input_refs cmd = ["SCRIPTS"]
    /\ input_refs cmd = ["TRAIN"; "TEST"; "SCRIPTS"]
    /\ descriptor_input_ids (jobs_dict p (PInt n)) = ["SCRIPTS"; "TRAIN"; "TEST"]
    /\ forall id : string,
         In id (input_refs cmd) -> In id (descriptor_input_ids (jobs_dict p (PInt n))).
Proof.
  exists (commandLine (PInt n) (FAKE p)). split; [reflexivity |].
  assert (He : expanded_input_refs (commandLine (PInt n) (FAKE p)) = ["SCRIPTS"]).
  { unfold expanded_input_refs.
    rewrite refs_commandLine_int; [| reflexivity | discriminate | intros rest; reflexivity].
    destruct (FAKE_cases p) as [[_ ->] | [_ ->]]; reflexivity. }
  assert (Hi : input_refs (commandLine (PInt n) (FAKE p)) = ["TRAIN"; "TEST"; "SCRIPTS"]).
  { unfold input_refs.
    rewrite refs_commandLine_int; [| reflexivity | discriminate | intros rest; reflexivity].
    destruct (FAKE_cases p) as [[_ ->] | [_ ->]]; reflexivity. }
  split; [exact He | split; [exact Hi | split; [reflexivity |]]].
  intros id. rewrite Hi.
  change (descriptor_input_ids (jobs_dict p (PInt n))) with ["SCRIPTS"; "TRAIN"; "TEST"].
  simpl. tauto.
Qed.

(** ** The order of the lifecycle steps *)

Lemma log_steps (p : params) :
  (fst (run p) = [] /\ exists e, snd (run p) = Raise e)
  \/ (map step_of (fst (run p)) = lifecycle /\ snd (run p) = Ok tt).
Proof.
  destruct (TOTAL_PROCESSES p) as [tp | e] eqn:Ht.
  - right. destruct (run_complete p tp _ Ht (JOB_NAME_of_total p tp Ht)) as (Hs & _ & Hl).
    now split.
  - left. rewrite (run_stops_without_total p e Ht). eauto.
Qed.

Lemma precedes_of_steps (a b : step) (log : list event) :
  (forall i j : nat,
     nth_error (map step_of log) i = Some a -> nth_error (map step_of log) j = Some b ->
     (i < j)%nat) ->
  precedes a b log.
Proof.
  intros H i j x y Hx Hy Ha Hb. apply H.
  - rewrite (map_nth_error step_of i log Hx). now f_equal.
  - rewrite (map_nth_error step_of j log Hy). now f_equal.
Qed.

Lemma precedes_nil (a b : step) : precedes a b [].
Proof. intros [|i] j x y Hx; discriminate Hx. Qed.

(** Positions in [lifecycle], by enumeration. *)
Ltac positions_upto n i H :=
  lazymatch n with
  | O => destruct i; discriminate H
  | S ?k => destruct i as [|i]; [simpl in H; try discriminate H | positions_upto k i H]
  end.

Ltac positions i H := positions_upto 19%nat i H.

Lemma lifecycle_order (a b : step) :
  In (a, b) [(Upload, Submit); (WriteDescriptor, Submit); (Submit, Poll);
             (Submit, Stream); (Submit, Delete); (Poll, Delete); (Stream, Delete)] ->
  forall i j : nat,
    nth_error lifecycle i = Some a -> nth_error lifecycle j = Some b -> (i < j)%nat.
Proof.
  intros Hab i j Hi Hj. simpl in Hab.
  repeat (destruct Hab as [Hab | Hab]; [injection Hab as <- <- |]);
    try contradiction;
    positions i Hi; positions j Hj; lia.
Qed.

Lemma precedes_run (a b : step) (p : params) :
  In (a, b) [(Upload, Submit); (WriteDescriptor, Submit); (Submit, Poll);
             (Submit, Stream); (Submit, Delete); (Poll, Delete); (Stream, Delete)] ->
  precedes a b (fst (run p)).
Proof.
  intros Hab. destruct (log_steps p) as [[-> _] | [Hl _]].
  - apply precedes_nil.
  - apply precedes_of_steps. rewrite Hl. now apply lifecycle_order.
Qed.

(** ** The [-y] flag of the delete commands *)

Lemma yes_end (acc : string) :
  existsb (String.eqb "-y") (words_from " -y" acc) = true.
Proof. destruct acc; simpl; [reflexivity | apply orb_true_r]. Qed.

Lemma yes_cons (c : ascii) (s : string) :
  (forall acc, existsb (String.eqb "-y") (words_from s acc) = true) ->
  forall acc, existsb (String.eqb "-y") (words_from (String c s) acc) = true.
Proof.
  intros H acc. simpl. destruct (is_space c); [| apply H].
  destruct acc; simpl; rewrite H; [reflexivity | apply orb_true_r].
Qed.

Lemma yes_app (s t : string) :
  (forall acc, existsb (String.eqb "-y") (words_from t acc) = true) ->
  forall acc, existsb (String.eqb "-y") (words_from (s ++ t) acc) = true.
Proof.
  intros H. induction s as [|c s IH]; [exact H |]. simpl. now apply yes_cons.
Qed.

(** *** Lines without characters special to the shell *)

Lemma all_chars_app (f : ascii -> bool) (a b : string) :
  all_chars f (a ++ b) = all_chars f a && all_chars f b.
Proof.
  induction a as [|c a IH]; simpl; [reflexivity |]. now rewrite IH, andb_assoc.
Qed.

Lemma safe_plain (s : string) :
  all_chars is_shell_safe s = true -> all_chars is_shell_plain s = true.
Proof.
  induction s as [|c s IH]; simpl; [reflexivity |].
  intros [Hc Hs]%andb_true_iff. unfold is_shell_plain at 1. now rewrite Hc, IH.
Qed.

Lemma safe_not_space (s : string) :
  all_chars is_shell_safe s = true -> all_chars (fun c => negb (is_space c)) s = true.
Proof.
  induction s as [|c s IH]; simpl; [reflexivity |].
  intros [Hc Hs]%andb_true_iff. rewrite (IH Hs), andb_true_r.
  destruct c as [[] [] [] [] [] [] [] []]; try discriminate Hc; reflexivity.
Qed.

Lemma numeric_safe (s : string) :
  all_chars is_numeric s = true -> all_chars is_shell_safe s = true.
Proof.
  induction s as [|c s IH]; simpl; [reflexivity |].
  intros [Hc Hs]%andb_true_iff. rewrite (IH Hs), andb_true_r.
  destruct c as [[] [] [] [] [] [] [] []]; try discriminate Hc; reflexivity.
Qed.

Lemma is_word_spec (s : string) :
  is_word s = true -> all_chars is_shell_safe s = true /\ s <> EmptyString.
Proof. destruct s; [discriminate | intros H; split; [exact H | discriminate]]. Qed.

Lemma az_argv_plain (cmd : string) :
  starts_with "az " cmd = true -> all_chars is_shell_plain cmd = true ->
  az_argv cmd = Some (words cmd).
Proof. intros Ha Hp. unfold az_argv. now rewrite Ha, Hp. Qed.

(** A line is plain when its literal parts and the settings in it are. *)
Ltac plain_line :=
  repeat lazymatch goal with
         | |- true = true => reflexivity
         | |- all_chars _ EmptyString = true => reflexivity
         | |- all_chars _ (String _ _) = true => progress simpl
         | |- all_chars _ (_ ++ _) = true =>
             rewrite all_chars_app; apply andb_true_intro; split
         | |- all_chars _ _ = true => assumption
         end.

Lemma unprompted (cmd : string) :
  starts_with "az " cmd = true -> all_chars is_shell_plain cmd = true ->
  (forall acc, existsb (String.eqb "-y") (words_from cmd acc) = true) ->
  asks_confirmation (Shell cmd) = Some false.
Proof.
  intros Ha Hp H. unfold asks_confirmation. rewrite az_argv_plain by assumption.
  unfold words. now rewrite H.
Qed.

Lemma ends_yes_cons (c : ascii) (s : string) :
  (exists pre, s = pre ++ " -y") -> exists pre, String c s = pre ++ " -y".
Proof. intros [pre ->]. now exists (String c pre). Qed.

Lemma ends_yes_app (s t : string) :
  (exists pre, t = pre ++ " -y") -> exists pre, s ++ t = pre ++ " -y".
Proof. intros [pre ->]. exists (s ++ pre). now rewrite append_assoc. Qed.

Ltac ends_yes :=
  repeat lazymatch goal with
         | |- exists pre, " -y" = pre ++ " -y" => now exists EmptyString
         | |- exists pre, String _ _ = pre ++ " -y" => apply ends_yes_cons
         | |- exists pre, _ ++ _ = pre ++ " -y" => apply ends_yes_app
         end.

Ltac carries_yes :=
  repeat lazymatch goal with
         | |- forall acc, existsb _ (words_from " -y" acc) = true => exact yes_end
         | |- forall acc, existsb _ (words_from (String _ _) acc) = true => apply yes_cons
         | |- forall acc, existsb _ (words_from (_ ++ _) acc) = true => apply yes_app
         end.

(** The text of every delete line ends in [-y], whatever the settings. *)
Lemma delete_lines_end_in_yes (p : params) (e : event) :
  In e (fst (run p)) -> step_of e = Delete -> exists pre, e = Shell (pre ++ " -y").
Proof.
  destruct (TOTAL_PROCESSES p) as [tp | err] eqn:Ht.
  - pose proof (JOB_NAME_of_total p tp Ht) as Hj.
    unfold run, notebook, bind, lift, sh, write_json_to_file, emit.
    rewrite Ht, Hj. cbn [fst app].
    intros Hin Hstep.
    repeat (destruct Hin as [<- | Hin]; [try discriminate Hstep |]);
      try contradiction;
      lazymatch goal with
      | |- exists pre, Shell ?cmd = Shell _ =>
          enough (H : exists pre, cmd = pre ++ " -y")
            by (destruct H as [pre H]; exists pre; now rewrite H at 1)
      end;
      ends_yes.
  - rewrite (run_stops_without_total p err Ht). contradiction.
Qed.

(** With settings that the shell hands on unchanged, [az] receives the
    [-y] of every delete line. *)
Lemma deletes_carry_yes (p : params) (e : event) :
  is_word (str (GROUP_NAME p)) = true ->
  is_word (str (WORKSPACE p)) = true ->
  is_word (str (CLUSTER_NAME p)) = true ->
  is_word (str (GPU_TYPE p)) = true ->
  (forall tp, TOTAL_PROCESSES p = Ok tp -> is_word (str tp) = true) ->
  In e (fst (run p)) -> step_of e = Delete -> asks_confirmation e = Some false.
Proof.
  intros [Hg%safe_plain _]%is_word_spec [Hw%safe_plain _]%is_word_spec
    [Hc%safe_plain _]%is_word_spec [Ht%safe_plain _]%is_word_spec Htp.
  destruct (TOTAL_PROCESSES p) as [tp | err] eqn:Htotal.
  - pose proof (JOB_NAME_of_total p tp Htotal) as Hj.
    destruct (is_word_spec _ (Htp tp eq_refl)) as [Hn%safe_plain _].
    unfold run, notebook, bind, lift, sh, write_json_to_file, emit, EXPERIMENT.
    rewrite Htotal, Hj. cbn [fst app].
    intros Hin Hstep.
    repeat (destruct Hin as [<- | Hin]; [try discriminate Hstep |]);
      try contradiction;
      (apply unprompted; [reflexivity | plain_line | carries_yes]).
  - rewrite (run_stops_without_total p err Htotal). contradiction.
Qed.

(** C3, as stated, fails: in the run of the tutorial settings the job is
    deleted by a command that carries [-y], for which [az] asks the operator
    nothing. *)
Lemma job_delete_asks_no_confirmation :
  let e := Shell "az batchai job delete -w workspace -e distributed_pytorch_V100 --name pytorch-horovod-8 -y" in
  In e (fst (run tutorial_params))
  /\ step_of e = Delete
  /\ asks_confirmation e = Some false.
Proof. vm_compute. repeat split. do 12 right. left. reflexivity. Qed.

(** C3, amended. In every run the uploads and the descriptor file come
    before the job submission, the submission before every status poll and
    log stream, and the polls and streams before every delete; a run that
    gets past line 53 goes through the whole lifecycle. The text of each
    delete line ends in [-y]; when the settings named in these lines are
    handed on unchanged by the shell, [az] receives this [-y] and no delete
    waits for a confirmation. *)
Theorem lifecycle_is_sequential_and_deletes_unprompted (p : params) :
  precedes Upload Submit (fst (run p))
  /\ precedes WriteDescriptor Submit (fst (run p))
  /\ precedes Submit Poll (fst (run p))
  /\ precedes Submit Stream (fst (run p))
  /\ precedes Submit Delete (fst (run p))
  /\ precedes Poll Delete (fst (run p))
  /\ precedes Stream Delete (fst (run p))
  /\ (forall e : event,
        In e (fst (run p)) -> step_of e = Delete -> exists pre, e = Shell (pre ++ " -y"))
  /\ (is_word (str (GROUP_NAME p)) = true ->
      is_word (str (WORKSPACE p)) = true ->
      is_word (str (CLUSTER_NAME p)) = true ->
      is_word (str (GPU_TYPE p)) = true ->
      (forall tp, TOTAL_PROCESSES p = Ok tp -> is_word (str tp) = true) ->
      forall e : event,
        In e (fst (run p)) -> step_of e = Delete -> asks_confirmation e = Some false)
  /\ ((exists tp, TOTAL_PROCESSES p = Ok tp) <-> map step_of (fst (run p)) = lifecycle).
Proof.
  repeat match goal with
         | |- precedes _ _ _ /\ _ => split; [apply precedes_run; simpl; tauto |]
         end.
  split; [intros e; apply delete_lines_end_in_yes |].
  split; [intros Hg Hw Hc Hgpu Htp e; now apply deletes_carry_yes |].
  split.
  - intros [tp Ht].
    now destruct (run_complete p tp _ Ht (JOB_NAME_of_total p tp Ht)) as (_ & _ & Hl).
  - intros Hl. destruct (TOTAL_PROCESSES p) as [tp | e] eqn:Ht; [eauto |].
    rewrite (run_stops_without_total p e Ht) in Hl. discriminate Hl.
Qed.

(** In the run of the tutorial settings every delete is unprompted. *)
Lemma lifecycle_is_sequential_and_deletes_unprompted_tutorial :
  is_word (str (GROUP_NAME tutorial_params)) = true
  /\ map step_of (fst (run tutorial_params)) = lifecycle
  /\ forall e : event,
       In e (fst (run tutorial_params)) -> step_of e = Delete ->
       asks_confirmation e = Some false.
Proof.
  destruct (lifecycle_is_sequential_and_deletes_unprompted tutorial_params)
    as (_ & _ & _ & _ & _ & _ & _ & _ & Hyes & Hlife).
  split; [reflexivity |]. split; [apply Hlife; now exists (PInt 8) |].
  apply Hyes; try reflexivity.
  intros tp Htp. vm_compute in Htp. injection Htp as <-. reflexivity.
Defined.

(** ** JSON: reading back what was written *)


Lemma parse_chars_escape_char (c : ascii) (t : string) :
  Json.parse_chars (Json.escape_char c ++ t) = Json.cons_char c (Json.parse_chars t).
Proof. destruct c as [[] [] [] [] [] [] [] []]; reflexivity. Qed.

Lemma parse_chars_escape (s rest : string) :
  Json.parse_chars (Json.escape s ++ String Json.dquote rest) = Some (s, rest).
Proof.
  induction s as [|c s IH]; [reflexivity |].
  cbn [Json.escape]. rewrite append_assoc, parse_chars_escape_char, IH. reflexivity.
Qed.

Lemma parse_chars_quote (s rest : string) :
  exists t, Json.quote s ++ rest = String Json.dquote t
            /\ Json.parse_chars t = Some (s, rest).
Proof.
  exists (Json.escape s ++ String Json.dquote rest). split.
  - unfold Json.quote. simpl. now rewrite append_assoc.
  - apply parse_chars_escape.
Qed.

Lemma read_digits_no_digit (rest : string) :
  Json.no_digit_head rest -> Json.read_digits rest = (Decimal.Nil, rest).
Proof. destruct rest as [|c t]; simpl; [reflexivity | now intros ->]. Qed.

Lemma read_digits_uint (u : Decimal.uint) (rest : string) :
  Json.no_digit_head rest ->
  Json.read_digits (NilEmpty.string_of_uint u ++ rest) = (u, rest).
Proof.
  intros Hrest. induction u; simpl;
    [now apply read_digits_no_digit | now rewrite IHu ..].
Qed.

Lemma parse_nat_uint (u : Decimal.uint) (rest : string) :
  Json.no_digit_head rest ->
  Json.parse_nat (NilZero.string_of_uint u ++ rest) = Some (Z.of_uint u, rest).
Proof.
  intros Hrest. unfold Json.parse_nat, NilZero.string_of_uint.
  destruct u; try (rewrite read_digits_uint by assumption; reflexivity).
  simpl. rewrite (read_digits_no_digit rest Hrest). reflexivity.
Qed.

(** A value that starts with a digit is a number. *)
Lemma parse_value_digit (fuel : nat) (c : ascii) (t : string) :
  Json.digit_of_char c <> None ->
  Json.parse_value (S fuel) (String c t)
  = match Json.parse_nat (String c t) with
    | Some (n, r) => Some (Atom (PInt n), r)
    | None => None
    end.
Proof.
  intros Hc. destruct c as [[] [] [] [] [] [] [] []];
    try (exfalso; apply Hc; reflexivity); reflexivity.
Qed.

Lemma string_of_uint_head (u : Decimal.uint) :
  exists c t, NilZero.string_of_uint u = String c t /\ Json.digit_of_char c <> None.
Proof. destruct u; simpl; do 2 eexists; (split; [reflexivity | discriminate]). Qed.

Lemma parse_value_minus (fuel : nat) (t : string) :
  Json.parse_value (S fuel) (String "-" t)
  = match Json.parse_nat t with
    | Some (n, r) => Some (Atom (PInt (- n)), r)
    | None => None
    end.
Proof. reflexivity. Qed.

Lemma parse_value_int (fuel : nat) (z : Z) (rest : string) :
  Json.no_digit_head rest ->
  Json.parse_value (S fuel) (str_of_Z z ++ rest) = Some (Atom (PInt z), rest).
Proof.
  intros Hrest. rewrite <- (DecimalZ.of_to z) at 2. unfold str_of_Z.
  destruct (Z.to_int z) as [u | u]; cbn [NilZero.string_of_int Z.of_int].
  - pose proof (parse_nat_uint u rest Hrest) as Hn.
    destruct (string_of_uint_head u) as (c & t & Hu & Hc). rewrite Hu in *.
    change (String c t ++ rest) with (String c (t ++ rest)) in *.
    rewrite parse_value_digit by assumption. now rewrite Hn.
  - change (String "-" (NilZero.string_of_uint u) ++ rest)
      with (String "-" (NilZero.string_of_uint u ++ rest)).
    rewrite parse_value_minus. now rewrite parse_nat_uint.
Qed.

Lemma parse_value_skip (fuel : nat) (s : string) :
  Json.parse_value fuel (String " " s) = Json.parse_value fuel s.
Proof. destruct fuel; reflexivity. Qed.

Lemma parse_value_open_list (fuel : nat) (t : string) :
  Json.parse_value (S fuel) (String "[" t)
  = match Json.expect "]" t with
    | Some r => Some (PList [], r)
    | None =>
        match Json.parse_items fuel t with
        | Some (items, r) => Some (PList items, r)
        | None => None
        end
    end.
Proof. reflexivity. Qed.

Lemma parse_value_open_dict (fuel : nat) (t : string) :
  Json.parse_value (S fuel) (String "{" t)
  = match Json.expect "}" t with
    | Some r => Some (PDict [], r)
    | None =>
        match Json.parse_members fuel t with
        | Some (members, r) => Some (PDict members, r)
        | None => None
        end
    end.
Proof. reflexivity. Qed.

Lemma parse_value_open_string (fuel : nat) (t : string) :
  Json.parse_value (S fuel) (String Json.dquote t)
  = match Json.parse_chars t with
    | Some (s, r) => Some (Atom (PStr s), r)
    | None => None
    end.
Proof. reflexivity. Qed.

Lemma parse_items_step (fuel : nat) (s : string) :
  Json.parse_items (S fuel) s
  = match Json.parse_value fuel s with
    | Some (v, r) =>
        match Json.expect "," r with
        | Some r' =>
            match Json.parse_items fuel r' with
            | Some (vs, r'') => Some (v :: vs, r'')
            | None => None
            end
        | None =>
            match Json.expect "]" r with
            | Some r' => Some ([v], r')
            | None => None
            end
        end
    | None => None
    end.
Proof. reflexivity. Qed.

Lemma parse_members_step (fuel : nat) (s : string) :
  Json.parse_members (S fuel) s
  = match Json.expect Json.dquote s with
    | Some r0 =>
        match Json.parse_chars r0 with
        | Some (k, r1) =>
            match Json.expect ":" r1 with
            | Some r2 =>
                match Json.parse_value fuel r2 with
                | Some (v, r3) =>
                    match Json.expect "," r3 with
                    | Some r4 =>
                        match Json.parse_members fuel r4 with
                        | Some (kvs, r5) => Some ((k, v) :: kvs, r5)
                        | None => None
                        end
                    | None =>
                        match Json.expect "}" r3 with
                        | Some r4 => Some ([(k, v)], r4)
                        | None => None
                        end
                    end
                | None => None
                end
            | None => None
            end
        | None => None
        end
    | None => None
    end.
Proof. reflexivity. Qed.

Lemma parse_items_skip (fuel : nat) (s : string) :
  Json.parse_items fuel (String " " s) = Json.parse_items fuel s.
Proof.
  destruct fuel; [reflexivity |]. now rewrite !parse_items_step, parse_value_skip.
Qed.

Lemma parse_members_skip (fuel : nat) (s : string) :
  Json.parse_members fuel (String " " s) = Json.parse_members fuel s.
Proof. destruct fuel; reflexivity. Qed.

Lemma expect_mismatch (c c0 : ascii) (t : string) :
  is_space c = false -> Ascii.eqb c c0 = false -> Json.expect c0 (String c t) = None.
Proof. intros Hs Hc. unfold Json.expect. simpl. now rewrite Hs, Hc. Qed.

(** What a serialized value starts with is neither white space nor a
    closing bracket. *)
Lemma dumps_head (v : pyobj) :
  exists c t, Json.dumps v = String c t /\ is_space c = false /\ Ascii.eqb c "]" = false.
Proof.
  destruct v as [[| [] | z | s] | items | members]; simpl;
    try (do 2 eexists; repeat split; reflexivity).
  unfold str_of_Z, NilZero.string_of_int, NilZero.string_of_uint.
  destruct (Z.to_int z) as [[] | u]; simpl; do 2 eexists; repeat split; reflexivity.
Qed.

Lemma dumps_nonempty (v : pyobj) : (0 < String.length (Json.dumps v))%nat.
Proof. destruct (dumps_head v) as (c & t & -> & _). simpl. lia. Qed.

Lemma atom_reads_back (a : pyval) : Json.reads_back (Atom a).
Proof.
  intros fuel rest Hlen Hrest.
  pose proof (dumps_nonempty (Atom a)) as Hpos.
  destruct fuel as [|fuel]; [lia |].
  destruct a as [| [] | z | s]; try reflexivity.
  - now apply parse_value_int.
  - destruct (parse_chars_quote s rest) as (t & Ht & Hp).
    cbn [Json.dumps]. rewrite Ht, parse_value_open_string, Hp. reflexivity.
Qed.

Lemma items_read_back (items : list pyobj) :
  Forall Json.reads_back items -> items <> [] ->
  forall (fuel : nat) (rest : string),
    (String.length (Json.join_with Json.dumps ", " items) < fuel)%nat ->
    Json.parse_items fuel (Json.join_with Json.dumps ", " items ++ String "]" rest)
    = Some (items, rest).
Proof.
  induction 1 as [| x items Hx Hitems IH]; intros Hne fuel rest Hlen; [congruence |].
  destruct fuel as [|fuel]; [lia |]. rewrite parse_items_step.
  destruct items as [| y items].
  - cbn [Json.join_with] in *.
    rewrite Hx by (simpl; auto; lia). reflexivity.
  - change (Json.join_with Json.dumps ", " (x :: y :: items))
      with (Json.dumps x ++ ", " ++ Json.join_with Json.dumps ", " (y :: items)) in *.
    rewrite !length_append in Hlen. simpl (String.length ", ") in Hlen.
    rewrite !append_assoc.
    change (", " ++ ?t) with (String "," (String " " t)).
    rewrite Hx by (simpl; auto; lia).
    change (Json.expect "," (String "," ?t)) with (Some t).
    cbv iota. rewrite parse_items_skip, IH by (congruence || lia). reflexivity.
Qed.

Lemma member_reads_back (k : string) (v : pyobj) (fuel : nat) (after : string) :
  Json.reads_back v -> (String.length (Json.member_with Json.dumps (k, v)) <= fuel)%nat ->
  Json.no_digit_head after ->
  exists t, Json.member_with Json.dumps (k, v) ++ after = String Json.dquote t
    /\ Json.parse_chars t = Some (k, String ":" (String " " (Json.dumps v ++ after)))
    /\ Json.parse_value fuel (String " " (Json.dumps v ++ after)) = Some (v, after).
Proof.
  intros Hv Hlen Hafter. unfold Json.member_with in *. cbn [fst snd] in *.
  rewrite !length_append in Hlen.
  destruct (parse_chars_quote k (": " ++ Json.dumps v ++ after)) as (t & Ht & Hp).
  exists t. rewrite !append_assoc. split; [exact Ht | split; [exact Hp |]].
  rewrite parse_value_skip. apply Hv; [lia | assumption].
Qed.

Lemma members_read_back (members : list (string * pyobj)) :
  Forall (fun kv => Json.reads_back (snd kv)) members -> members <> [] ->
  forall (fuel : nat) (rest : string),
    (String.length (Json.join_with (Json.member_with Json.dumps) ", " members) < fuel)%nat ->
    Json.parse_members fuel (Json.join_with (Json.member_with Json.dumps) ", " members ++ String "}" rest)
    = Some (members, rest).
Proof.
  induction 1 as [| [k v] members Hv Hmembers IH]; intros Hne fuel rest Hlen;
    [congruence |].
  destruct fuel as [|fuel]; [lia |]. rewrite parse_members_step.
  destruct members as [| kv members].
  - cbn [Json.join_with] in *.
    destruct (member_reads_back k v fuel (String "}" rest) Hv) as (t & -> & Hk & Hp);
      [lia | reflexivity |].
    change (Json.expect Json.dquote (String Json.dquote t)) with (Some t).
    cbv iota. rewrite Hk.
    change (Json.expect ":" (String ":" ?x)) with (Some x).
    cbv iota. rewrite Hp. reflexivity.
  - change (Json.join_with (Json.member_with Json.dumps) ", " ((k, v) :: kv :: members))
      with (Json.member_with Json.dumps (k, v) ++ ", " ++ Json.join_with (Json.member_with Json.dumps) ", " (kv :: members)) in *.
    rewrite !length_append in Hlen. simpl (String.length ", ") in Hlen.
    rewrite !append_assoc.
    change (", " ++ ?x) with (String "," (String " " x)).
    destruct (member_reads_back k v fuel
                (String "," (String " "
                   (Json.join_with (Json.member_with Json.dumps) ", " (kv :: members) ++ String "}" rest))) Hv)
      as (t & -> & Hk & Hp); [lia | reflexivity |].
    change (Json.expect Json.dquote (String Json.dquote t)) with (Some t).
    cbv iota. rewrite Hk.
    change (Json.expect ":" (String ":" ?x)) with (Some x).
    cbv iota. rewrite Hp.
    change (Json.expect "," (String "," ?x)) with (Some x).
    cbv iota. rewrite parse_members_skip, IH by (congruence || lia). reflexivity.
Qed.

Lemma list_reads_back (items : list pyobj) :
  Forall Json.reads_back items -> Json.reads_back (PList items).
Proof.
  intros Hitems fuel rest Hlen Hrest. cbn [Json.dumps] in *.
  change ("[" ++ ?x) with (String "[" x) in *. cbn [String.length] in Hlen.
  destruct fuel as [|fuel]; [lia |].
  change (String "[" ?x ++ rest) with (String "[" (x ++ rest)).
  rewrite append_assoc, parse_value_open_list. rewrite length_append in Hlen.
  destruct items as [| x items]; [reflexivity |].
  assert (Hhead : Json.expect "]"
            (Json.join_with Json.dumps ", " (x :: items) ++ "]" ++ rest) = None).
  { destruct (dumps_head x) as (c & t & Hx & Hs & Hc).
    destruct items; cbn [Json.join_with]; rewrite Hx; now apply expect_mismatch. }
  rewrite Hhead.
  change ("]" ++ rest) with (String "]" rest).
  change (String.length "]") with 1%nat in Hlen.
  rewrite items_read_back by (assumption || congruence || lia).
  reflexivity.
Qed.

Lemma dict_reads_back (members : list (string * pyobj)) :
  Forall (fun kv => Json.reads_back (snd kv)) members -> Json.reads_back (PDict members).
Proof.
  intros Hmembers fuel rest Hlen Hrest. cbn [Json.dumps] in *.
  change ("{" ++ ?x) with (String "{" x) in *. cbn [String.length] in Hlen.
  destruct fuel as [|fuel]; [lia |].
  change (String "{" ?x ++ rest) with (String "{" (x ++ rest)).
  rewrite append_assoc, parse_value_open_dict. rewrite length_append in Hlen.
  destruct members as [| kv members]; [reflexivity |].
  assert (Hhead : Json.expect "}"
            (Json.join_with (Json.member_with Json.dumps) ", " (kv :: members) ++ "}" ++ rest) = None).
  { destruct members; reflexivity. }
  rewrite Hhead.
  change ("}" ++ rest) with (String "}" rest).
  change (String.length "}") with 1%nat in Hlen.
  rewrite members_read_back by (assumption || congruence || lia).
  reflexivity.
Qed.

Lemma every_value_reads_back (v : pyobj) : Json.reads_back v.
Proof.
  induction v using pyobj_ind;
    auto using atom_reads_back, list_reads_back, dict_reads_back.
Qed.

Lemma loads_dumps (v : pyobj) : Json.loads (Json.dumps v) = Some v.
Proof.
  unfold Json.loads.
  rewrite <- (append_nil_r (Json.dumps v)) at 2.
  rewrite every_value_reads_back; [reflexivity | lia | exact I].
Qed.

(** C7. The file that a run writes for its descriptor, read back with the
    JSON parser, yields the descriptor itself, field for field and in the
    same order. *)
Theorem descriptor_file_round_trips (p : params) (tp : pyval) :
  TOTAL_PROCESSES p = Ok tp ->
  exists content : string,
    written "job.json" (fst (run p)) = Some content
    /\ Json.loads content = Some (jobs_dict p tp).
Proof.
  intros Ht. exists (Json.dumps (jobs_dict p tp)). split.
  - now destruct (run_complete p tp _ Ht (JOB_NAME_of_total p tp Ht)) as (_ & Hw & _).
  - apply loads_dumps.
Qed.

Lemma descriptor_file_round_trips_tutorial :
  exists content : string,
    written "job.json" (fst (run tutorial_params)) = Some content
    /\ Json.loads content = Some (jobs_dict tutorial_params (PInt 8)).
Proof. exact (descriptor_file_round_trips tutorial_params (PInt 8) eq_refl). Defined.

(** * Further properties of the notebook *)

(** ** When line 53 raises *)

Lemma repeat_checked_cases (s : string) (n : Z) :
  (repeat_checked s n = Raise OverflowError
   /\ (n < - ssize_max - 1 \/ ssize_max < n
       \/ ssize_max < Z.of_nat (String.length s) * n)%Z)
  \/ (repeat_checked s n = Ok (PStr (repeat_str s n))
      /\ (- ssize_max - 1 <= n <= ssize_max
          /\ Z.of_nat (String.length s) * n <= ssize_max)%Z).
Proof.
  unfold repeat_checked.
  destruct (Z.ltb_spec n (- ssize_max - 1)); [left; split; [reflexivity | lia] |].
  destruct (Z.ltb_spec ssize_max n); [left; split; [reflexivity | lia] |].
  destruct (Z.ltb_spec ssize_max (Z.of_nat (String.length s) * n));
    [left; split; [reflexivity | lia] | right; split; [reflexivity | lia]].
Qed.

Lemma mul_raises_TypeError (a b : pyval) :
  mul a b = Raise TypeError
  <-> a = PNone \/ b = PNone \/ exists s t, a = PStr s /\ b = PStr t.
Proof.
  destruct a as [| x | x | x], b as [| y | y | y]; simpl;
    try (split; [intros _; eauto 6 | reflexivity]);
    try (split; [discriminate |];
         intros [H | [H | (s & t & H & H')]]; discriminate);
    match goal with
    | |- repeat_checked ?s ?n = _ <-> _ =>
        destruct (repeat_checked_cases s n) as [[-> _] | [-> _]]
    end;
    (split; [discriminate |]; intros [H | [H | (s & t & H & H')]]; discriminate).
Qed.

(** X2. The product of line 53 raises [TypeError] exactly when a count is
    [None] or both counts are text. It raises [OverflowError] exactly when
    one count is text and the other a number (a boolean counting as 0 or 1)
    that does not fit an index, or that makes the repeated text longer than
    an index can tell. *)
Theorem total_processes_raises_iff (p : params) :
  (TOTAL_PROCESSES p = Raise TypeError
   <-> PROCESSES_PER_NODE p = PNone \/ NUM_NODES p = PNone
       \/ exists s t, PROCESSES_PER_NODE p = PStr s /\ NUM_NODES p = PStr t)
  /\ (TOTAL_PROCESSES p = Raise OverflowError
      <-> exists (s : string) (n : Z),
            ((PROCESSES_PER_NODE p = PStr s /\ as_int (NUM_NODES p) = Some n)
             \/ (as_int (PROCESSES_PER_NODE p) = Some n /\ NUM_NODES p = PStr s))
            /\ (n < - 2 ^ 63 \/ 2 ^ 63 <= n
                \/ 2 ^ 63 <= Z.of_nat (String.length s) * n)%Z).
Proof.
  split; [apply mul_raises_TypeError |].
  unfold TOTAL_PROCESSES.
  destruct (PROCESSES_PER_NODE p) as [| x | x | x], (NUM_NODES p) as [| y | y | y];
    simpl;
    try (split; [discriminate |];
         intros (s & n & [[H H'] | [H H']] & _); discriminate);
    match goal with
    | |- repeat_checked ?s ?n = _ <-> _ =>
        destruct (repeat_checked_cases s n) as [[-> Hn] | [-> Hn]];
        unfold ssize_max in Hn
    end;
    (split;
     [ first [ discriminate
             | intros _; eexists _, _; split;
               [first [left; split; reflexivity | right; split; reflexivity] | lia] ]
     | first [ reflexivity
             | intros (s & n & [[H H'] | [H H']] & Hb);
               first [discriminate
                     | injection H as <-; injection H' as <-; lia
                     | injection H' as <-; injection H as <-; lia] ] ]).
Qed.

(** X1. Nothing comes before line 53 and nothing after it can fail but
    line 124: when line 53 raises, the run ends with that exception before
    the first command and without any file; when lines 53 and 124 both yield
    a value, the run goes through the whole lifecycle, 18 commands and the
    descriptor file; and with counts that are not text, line 124 yields a
    value whenever line 53 does. *)
Theorem run_is_all_or_nothing (p : params) :
  (forall e : exn,
     TOTAL_PROCESSES p = Raise e ->
     run p = ([], Raise e) /\ files_written (fst (run p)) = [])
  /\ (forall (tp : pyval) (name : string),
        TOTAL_PROCESSES p = Ok tp -> JOB_NAME p = Ok name ->
        name = "pytorch-horovod-" ++ str tp
        /\ snd (run p) = Ok tt
        /\ map step_of (fst (run p)) = lifecycle
        /\ length (shell_commands (fst (run p))) = 18%nat
        /\ files_written (fst (run p)) = [("job.json", Json.dumps (jobs_dict p tp))])
  /\ ((forall s, PROCESSES_PER_NODE p <> PStr s) -> (forall s, NUM_NODES p <> PStr s) ->
      forall tp : pyval,
        TOTAL_PROCESSES p = Ok tp ->
        exists z : Z, tp = PInt z /\ JOB_NAME p = Ok ("pytorch-horovod-" ++ str_of_Z z)).
Proof.
  split; [| split].
  - intros e He. rewrite (run_stops_without_total p e He). split; reflexivity.
  - intros tp name Ht Hj.
    pose proof (JOB_NAME_of_total p tp Ht) as Hj'. rewrite Hj in Hj'.
    injection Hj' as ->.
    destruct (run_complete p tp _ Ht Hj) as (Hs & _ & Hl).
    repeat split; try assumption;
      unfold run, notebook, bind, lift; rewrite Ht, Hj; reflexivity.
  - intros Hp Hn tp Ht. pose proof (JOB_NAME_of_total p tp Ht) as Hj.
    unfold TOTAL_PROCESSES in Ht.
    destruct (PROCESSES_PER_NODE p) as [| x | x | x]; try (now destruct (Hp x));
      destruct (NUM_NODES p) as [| y | y | y]; try (now destruct (Hn y));
      simpl in Ht; try discriminate Ht; injection Ht as <-;
      (eexists; split; [reflexivity | exact Hj]).
Qed.

(** ** Counts of mixed types *)

Lemma length_repeat_nat (s : string) (k : nat) :
  String.length (repeat_nat s k) = (k * String.length s)%nat.
Proof. induction k as [|k IH]; simpl; [reflexivity | now rewrite length_append, IH]. Qed.

(** X3. When one count is text and the other a number within the index
    range that keeps the repeated text within a mebibyte, nothing is raised:
    line 53 repeats the text that many times (not at all for a number below
    one), and this repeated text is what follows [-np] in the [commandLine]
    written to [job.json] and [pytorch-horovod-] in the job name; the run
    completes. *)
Theorem text_count_is_repeated (p : params) (s : string) (n : Z) :
  (PROCESSES_PER_NODE p = PStr s /\ NUM_NODES p = PInt n)
  \/ (PROCESSES_PER_NODE p = PInt n /\ NUM_NODES p = PStr s) ->
  (- 2 ^ 63 <= n < 2 ^ 63)%Z ->
  (Z.of_nat (String.length s) * n <= 2 ^ 20)%Z ->
  TOTAL_PROCESSES p = Ok (PStr (repeat_str s n))
  /\ String.length (repeat_str s n) = (Z.to_nat n * String.length s)%nat
  /\ JOB_NAME p = Ok ("pytorch-horovod-" ++ repeat_str s n)
  /\ files_written (fst (run p))
     = [("job.json", Json.dumps (jobs_dict p (PStr (repeat_str s n))))]
  /\ descriptor_commandLine (jobs_dict p (PStr (repeat_str s n)))
     = Some (np_head ++ repeat_str s n ++ np_tail (FAKE p))
  /\ snd (run p) = Ok tt.
Proof.
  intros H Hn Hlen.
  assert (Hr : repeat_checked s n = Ok (PStr (repeat_str s n))).
  { destruct (repeat_checked_cases s n) as [[_ Hb] | [Hr _]]; [| exact Hr].
    unfold ssize_max in Hb. lia. }
  assert (Ht : TOTAL_PROCESSES p = Ok (PStr (repeat_str s n))).
  { unfold TOTAL_PROCESSES. destruct H as [[-> ->] | [-> ->]]; exact Hr. }
  pose proof (JOB_NAME_of_total p _ Ht) as Hj.
  destruct (run_complete p _ _ Ht Hj) as (Hs & _ & _).
  repeat split; try assumption.
  - apply length_repeat_nat.
  - unfold run, notebook, bind, lift. rewrite Ht, Hj. reflexivity.
Qed.

Lemma text_count_is_repeated_example :
  let p := {| GROUP_NAME := PStr "batchrg"; FILE_SHARE_NAME := PStr "share";
              WORKSPACE := PStr "workspace"; NUM_NODES := PInt 2;
              CLUSTER_NAME := PStr "cluster"; GPU_TYPE := PStr "V100";
              PROCESSES_PER_NODE := PStr "4"; USE_FAKE := PBool false;
              DOCKERHUB := PStr "masalvar" |} in
  TOTAL_PROCESSES p = Ok (PStr "44") /\ JOB_NAME p = Ok "pytorch-horovod-44".
Proof.
  intros p.
  assert (Hn : (- 2 ^ 63 <= 2 < 2 ^ 63)%Z) by (split; [discriminate | reflexivity]).
  assert (Hlen : (Z.of_nat (String.length "4") * 2 <= 2 ^ 20)%Z) by discriminate.
  destruct (text_count_is_repeated p "4" 2%Z (or_introl (conj eq_refl eq_refl)) Hn Hlen)
    as (Ht & _ & Hj & _).
  split; [exact Ht | exact Hj].
Defined.

(** ** Counts that are numbers *)

Lemma loads_int (z : Z) : Json.loads (str_of_Z z) = Some (Atom (PInt z)).
Proof. exact (loads_dumps (Atom (PInt z))). Qed.

(** X4. When both counts are numbers, the run completes, the descriptor
    written to [job.json] has [NUM_NODES] as its [nodeCount], and the word
    after [-np] in its [commandLine] reads as the number
    [nodeCount * PROCESSES_PER_NODE]. *)
Theorem integer_counts_multiply (p : params) (n m : Z) :
  NUM_NODES p = PInt n -> PROCESSES_PER_NODE p = PInt m ->
  exists (d : pyobj) (cmd np : string),
    snd (run p) = Ok tt
    /\ files_written (fst (run p)) = [("job.json", Json.dumps d)]
    /\ descriptor_nodeCount d = Some (Atom (PInt n))
    /\ descriptor_commandLine d = Some cmd
    /\ argument_of "-np" (words cmd) = Some np
    /\ Json.loads np = Some (Atom (PInt (n * m))).
Proof.
  intros Hn Hm.
  pose proof (TOTAL_PROCESSES_int p n m Hn Hm) as Ht.
  pose proof (JOB_NAME_of_total p _ Ht) as Hj.
  exists (jobs_dict p (PInt (m * n))), (commandLine (PInt (m * n)) (FAKE p)),
    (str_of_Z (m * n)).
  split; [now destruct (run_complete p _ _ Ht Hj) |].
  split; [unfold run, notebook, bind, lift; rewrite Ht, Hj; reflexivity |].
  split; [unfold descriptor_nodeCount; simpl; now rewrite Hn |].
  split; [reflexivity |].
  split; [apply np_argument_int |].
  rewrite loads_int. now rewrite Z.mul_comm.
Qed.

Lemma integer_counts_multiply_tutorial :
  exists (d : pyobj) (cmd np : string),
    snd (run tutorial_params) = Ok tt
    /\ files_written (fst (run tutorial_params)) = [("job.json", Json.dumps d)]
    /\ descriptor_nodeCount d = Some (Atom (PInt 2))
    /\ descriptor_commandLine d = Some cmd
    /\ argument_of "-np" (words cmd) = Some np
    /\ Json.loads np = Some (Atom (PInt (2 * 4))).
Proof. exact (integer_counts_multiply tutorial_params 2%Z 4%Z eq_refl eq_refl). Defined.

(** ** The truth value of [USE_FAKE] *)

(** X5. With a number as process count, [commandLine] holds
    [-env FAKE=True] once or not at all, by the truth value of [USE_FAKE]:
    never for [None], for a boolean by its value, for a number unless it is
    zero, and for a text unless it is empty, so that the text [False] switches
    the flag on. *)
Theorem flag_follows_truth_value (p : params) (n : Z) :
  let k := occurrences "-env FAKE=True" (commandLine (PInt n) (FAKE p)) in
  (USE_FAKE p = PNone -> k = 0%nat)
  /\ (forall b : bool, USE_FAKE p = PBool b -> k = if b then 1%nat else 0%nat)
  /\ (forall z : Z, USE_FAKE p = PInt z -> k = if (z =? 0)%Z then 0%nat else 1%nat)
  /\ (forall s : string, USE_FAKE p = PStr s ->
        k = match s with EmptyString => 0%nat | String _ _ => 1%nat end)
  /\ (USE_FAKE p = PStr "False" -> k = 1%nat).
Proof.
  intros k. subst k. rewrite occurrences_env_FAKE_int. unfold FAKE.
  repeat split.
  - intros ->. reflexivity.
  - intros b ->. destruct b; reflexivity.
  - intros z ->. simpl. destruct (z =? 0)%Z; reflexivity.
  - intros s ->. destruct s; reflexivity.
  - intros ->. reflexivity.
Qed.

(** ** The descriptor file and its submission *)

(** X6. A run writes no file, or exactly one: the descriptor, to
    [job.json], and then the file is written before the line that submits
    the job, which is the only such line and whose text ends in
    [-f job.json], whatever the settings hold. *)
Theorem descriptor_written_once_and_submitted (p : params) :
  (files_written (fst (run p)) = [] /\ shell_commands (fst (run p)) = [])
  \/ (exists (tp : pyval) (before after : list event) (pre : string),
        TOTAL_PROCESSES p = Ok tp
        /\ files_written (fst (run p)) = [("job.json", Json.dumps (jobs_dict p tp))]
        /\ fst (run p)
           = (before ++ FileWrite "job.json" (Json.dumps (jobs_dict p tp))
                     :: Shell (pre ++ " -f job.json") :: after)%list
        /\ starts_with "az batchai job create -n pytorch-horovod-" (pre ++ " -f job.json")
           = true
        /\ (forall e, In e before \/ In e after -> step_of e <> Submit)).
Proof.
  destruct (TOTAL_PROCESSES p) as [tp | e] eqn:Ht.
  - right. pose proof (JOB_NAME_of_total p tp Ht) as Hj.
    exists tp.
    exists [Shell ("az batchai experiment create -n " ++ EXPERIMENT p ++ " -g "
                     ++ str (GROUP_NAME p) ++ " -w " ++ str (WORKSPACE p));
            Shell ("az storage file upload --share-name " ++ str (FILE_SHARE_NAME p)
                     ++ " --source src/imagenet_pytorch_horovod.py --path scripts");
            Shell ("az storage file upload --share-name " ++ str (FILE_SHARE_NAME p)
                     ++ " --source ../common/timer.py --path scripts");
            Shell ("az storage file upload --share-name " ++ str (FILE_SHARE_NAME p)
                     ++ " --source cluster_config/docker.service --path scripts");
            Shell ("az storage file upload --share-name " ++ str (FILE_SHARE_NAME p)
                     ++ " --source cluster_config/nodeprep.sh --path scripts");
            Shell ("az batchai cluster list -w " ++ str (WORKSPACE p) ++ " -o table")].
    eexists.
    exists ("az batchai job create -n " ++ ("pytorch-horovod-" ++ str tp) ++ " --cluster "
              ++ str (CLUSTER_NAME p) ++ " -w " ++ str (WORKSPACE p) ++ " -e "
              ++ EXPERIMENT p).
    unfold run, notebook, bind, lift, sh, write_json_to_file, emit.
    rewrite Ht, Hj. cbn [fst app files_written].
    split; [reflexivity | split; [reflexivity | split; [| split; [reflexivity |]]]].
    + rewrite !append_assoc. reflexivity.
    + intros e [Hin | Hin];
        repeat (destruct Hin as [<- | Hin]; [discriminate |]); contradiction.
  - left. rewrite (run_stops_without_total p e Ht). split; reflexivity.
Qed.

(** ** The order of the deletions *)

(** X7. A run that gets past line 53 deletes the job, then the cluster,
    then the experiment, then the workspace, then the resource group, each
    once and in this order; any other run deletes nothing. *)
Theorem deletions_go_from_job_to_group (p : params) :
  (exists tp, TOTAL_PROCESSES p = Ok tp)
  /\ deletions (shell_commands (fst (run p)))
     = ["job"; "cluster"; "experiment"; "workspace"; "group"]
  \/ (exists e, TOTAL_PROCESSES p = Raise e)
     /\ deletions (shell_commands (fst (run p))) = [].
Proof.
  destruct (TOTAL_PROCESSES p) as [tp | e] eqn:Ht.
  - left. split; [eauto |]. pose proof (JOB_NAME_of_total p tp Ht) as Hj.
    unfold run, notebook, bind, lift, sh, emit, write_json_to_file.
    rewrite Ht, Hj. reflexivity.
  - right. split; [eauto |]. now rewrite (run_stops_without_total p e Ht).
Qed.

(** ** What the commands and the descriptor depend on *)

(** X8. The fake-data flag and the container registry reach the descriptor
    only: two runs that differ in [USE_FAKE] and [DOCKERHUB] alone issue the
    same commands and end the same way. *)
Theorem commands_ignore_fake_and_registry
  (g f w nn c gt ppn use_fake use_fake' dockerhub dockerhub' : pyval) :
  let p := {| GROUP_NAME := g; FILE_SHARE_NAME := f; WORKSPACE := w; NUM_NODES := nn;
              CLUSTER_NAME := c; GPU_TYPE := gt; PROCESSES_PER_NODE := ppn;
              USE_FAKE := use_fake; DOCKERHUB := dockerhub |} in
  let q := {| GROUP_NAME := g; FILE_SHARE_NAME := f; WORKSPACE := w; NUM_NODES := nn;
              CLUSTER_NAME := c; GPU_TYPE := gt; PROCESSES_PER_NODE := ppn;
              USE_FAKE := use_fake'; DOCKERHUB := dockerhub' |} in
  shell_commands (fst (run p)) = shell_commands (fst (run q))
  /\ snd (run p) = snd (run q).
Proof.
  intros p q. unfold run, notebook, bind, lift, sh, emit, write_json_to_file.
  change (TOTAL_PROCESSES q) with (TOTAL_PROCESSES p).
  change (JOB_NAME q) with (JOB_NAME p).
  destruct (TOTAL_PROCESSES p) as [tp | e]; [| split; reflexivity].
  destruct (JOB_NAME p) as [name | e]; split; reflexivity.
Qed.

(** X9. The resource names reach the commands only: two runs that differ
    in the group, the file share, the workspace, the cluster and the GPU type
    alone write the same descriptor file. *)
Theorem descriptor_ignores_resource_names
  (g g' f f' w w' c c' gt gt' nn ppn use_fake dockerhub : pyval) :
  let p := {| GROUP_NAME := g; FILE_SHARE_NAME := f; WORKSPACE := w; NUM_NODES := nn;
              CLUSTER_NAME := c; GPU_TYPE := gt; PROCESSES_PER_NODE := ppn;
              USE_FAKE := use_fake; DOCKERHUB := dockerhub |} in
  let q := {| GROUP_NAME := g'; FILE_SHARE_NAME := f'; WORKSPACE := w'; NUM_NODES := nn;
              CLUSTER_NAME := c'; GPU_TYPE := gt'; PROCESSES_PER_NODE := ppn;
              USE_FAKE := use_fake; DOCKERHUB := dockerhub |} in
  files_written (fst (run p)) = files_written (fst (run q)).
Proof.
  intros p q. unfold run, notebook, bind, lift, sh, emit, write_json_to_file.
  change (TOTAL_PROCESSES q) with (TOTAL_PROCESSES p).
  change (JOB_NAME q) with (JOB_NAME p).
  destruct (TOTAL_PROCESSES p) as [tp | e]; [| reflexivity].
  destruct (JOB_NAME p) as [name | e]; reflexivity.
Qed.

(** ** The arguments of the commands *)

Lemma words_from_word_space (w rest acc : string) :
  all_chars (fun c => negb (is_space c)) w = true -> acc ++ w <> EmptyString ->
  words_from (w ++ String " " rest) acc = (acc ++ w) :: words_from rest EmptyString.
Proof.
  intros Hw Hne. rewrite words_from_space, words_from_word by assumption. reflexivity.
Qed.

(** Splitting a command into words, one setting at a time. *)
Ltac split_words :=
  repeat (simpl;
          first [ rewrite words_from_word_space
                    by first [assumption | simpl; assumption | simpl; discriminate]
                | rewrite words_from_word
                    by first [assumption | simpl; assumption | simpl; discriminate] ]).

(** The arguments of the plain lines of a list, then their words. *)
Ltac plain_argvs :=
  repeat rewrite az_argv_plain by first [reflexivity | plain_line];
  unfold words; split_words.

(** X10. When the workspace, the cluster and the GPU type are handed on
    unchanged by the shell and the process count is a number, [az] receives
    these arguments from the six [az batchai job] lines of the run: the job
    created under the name [pytorch-horovod-<count>] on the cluster is the one
    listed, streamed and deleted, always in the same workspace and
    experiment. *)
Theorem job_commands_name_one_job (p : params) (n : Z) :
  TOTAL_PROCESSES p = Ok (PInt n) ->
  is_word (str (WORKSPACE p)) = true ->
  is_word (str (CLUSTER_NAME p)) = true ->
  is_word (str (GPU_TYPE p)) = true ->
  let job := "pytorch-horovod-" ++ str_of_Z n in
  let w := str (WORKSPACE p) in
  let e := "distributed_pytorch_" ++ str (GPU_TYPE p) in
  job_argvs (fst (run p))
  = [ Some ["az"; "batchai"; "job"; "create"; "-n"; job; "--cluster";
            str (CLUSTER_NAME p); "-w"; w; "-e"; e; "-f"; "job.json"];
      Some ["az"; "batchai"; "job"; "list"; "-w"; w; "-e"; e; "-o"; "table"];
      Some ["az"; "batchai"; "job"; "file"; "list"; "-w"; w; "-e"; e; "--j"; job;
            "--output-directory-id"; "stdouterr"];
      Some ["az"; "batchai"; "job"; "file"; "stream"; "-w"; w; "-e"; e; "--j"; job;
            "--output-directory-id"; "stdouterr"; "-f"; "stdout.txt"];
      Some ["az"; "batchai"; "job"; "file"; "stream"; "-w"; w; "-e"; e; "--j"; job;
            "--output-directory-id"; "stdouterr"; "-f"; "stderr.txt"];
      Some ["az"; "batchai"; "job"; "delete"; "-w"; w; "-e"; e; "--name"; job; "-y"] ].
Proof.
  intros Ht [Hws Hw']%is_word_spec [Hcs Hc']%is_word_spec [Hgs Hg']%is_word_spec job w e.
  pose proof (safe_plain _ Hws) as Hwp. pose proof (safe_not_space _ Hws) as Hw.
  pose proof (safe_plain _ Hcs) as Hcp. pose proof (safe_not_space _ Hcs) as Hc.
  pose proof (safe_plain _ Hgs) as Hgp. pose proof (safe_not_space _ Hgs) as Hg.
  pose proof (JOB_NAME_of_total p _ Ht) as Hj.
  pose proof (numeric_not_space _ (str_of_Z_numeric n)) as Hn.
  pose proof (safe_plain _ (numeric_safe _ (str_of_Z_numeric n))) as Hnp.
  pose proof (str_of_Z_nonempty n) as Hn'.
  unfold run, notebook, bind, lift, sh, write_json_to_file, emit, EXPERIMENT.
  rewrite Ht, Hj. cbn -[Json.dumps az_argv]. plain_argvs. reflexivity.
Qed.

Lemma job_commands_name_one_job_tutorial :
  job_argvs (fst (run tutorial_params))
  = [ Some ["az"; "batchai"; "job"; "create"; "-n"; "pytorch-horovod-8"; "--cluster";
            "cluster"; "-w"; "workspace"; "-e"; "distributed_pytorch_V100";
            "-f"; "job.json"];
      Some ["az"; "batchai"; "job"; "list"; "-w"; "workspace"; "-e";
            "distributed_pytorch_V100"; "-o"; "table"];
      Some ["az"; "batchai"; "job"; "file"; "list"; "-w"; "workspace"; "-e";
            "distributed_pytorch_V100"; "--j"; "pytorch-horovod-8";
            "--output-directory-id"; "stdouterr"];
      Some ["az"; "batchai"; "job"; "file"; "stream"; "-w"; "workspace"; "-e";
            "distributed_pytorch_V100"; "--j"; "pytorch-horovod-8";
            "--output-directory-id"; "stdouterr"; "-f"; "stdout.txt"];
      Some ["az"; "batchai"; "job"; "file"; "stream"; "-w"; "workspace"; "-e";
            "distributed_pytorch_V100"; "--j"; "pytorch-horovod-8";
            "--output-directory-id"; "stdouterr"; "-f"; "stderr.txt"];
      Some ["az"; "batchai"; "job"; "delete"; "-w"; "workspace"; "-e";
            "distributed_pytorch_V100"; "--name"; "pytorch-horovod-8"; "-y"] ].
Proof.
  exact (job_commands_name_one_job tutorial_params 8%Z eq_refl eq_refl eq_refl eq_refl).
Defined.

(** ** Settings are not quoted *)

(** X11. The line that deletes the resource group is the last one of a
    complete run, and it holds [GROUP_NAME] unquoted: an absent name arrives
    at [az] as the word [None], an empty one leaves [--name] followed by
    [-y], and a name made of two words that the shell hands on unchanged
    arrives as two arguments. *)
Theorem group_name_is_not_quoted (p : params) (tp : pyval) :
  TOTAL_PROCESSES p = Ok tp ->
  exists cmd : string,
    last (shell_commands (fst (run p))) = Some cmd
    /\ deleted_resource cmd = Some "group"
    /\ (GROUP_NAME p = PNone ->
        az_argv cmd = Some ["az"; "group"; "delete"; "--name"; "None"; "-y"])
    /\ (GROUP_NAME p = PStr EmptyString ->
        az_argv cmd = Some ["az"; "group"; "delete"; "--name"; "-y"])
    /\ (forall u v : string,
          GROUP_NAME p = PStr (u ++ " " ++ v) -> is_word u = true -> is_word v = true ->
          az_argv cmd = Some ["az"; "group"; "delete"; "--name"; u; v; "-y"]).
Proof.
  intros Ht. pose proof (JOB_NAME_of_total p _ Ht) as Hj.
  exists ("az group delete --name " ++ str (GROUP_NAME p) ++ " -y").
  split; [| split; [reflexivity | split; [| split]]].
  - unfold run, notebook, bind, lift, sh, write_json_to_file, emit.
    rewrite Ht, Hj. reflexivity.
  - intros ->. reflexivity.
  - intros ->. reflexivity.
  - intros u v -> [Hus Hu']%is_word_spec [Hvs Hv']%is_word_spec.
    pose proof (safe_plain _ Hus) as Hup. pose proof (safe_not_space _ Hus) as Hu.
    pose proof (safe_plain _ Hvs) as Hvp. pose proof (safe_not_space _ Hvs) as Hv.
    cbn [str]. rewrite append_assoc.
    change (" " ++ v) with (String " " v).
    change (String " " v ++ " -y") with (String " " (v ++ " -y")).
    plain_argvs. reflexivity.
Qed.

Lemma group_name_is_not_quoted_example :
  let p := {| GROUP_NAME := PStr "my group"; FILE_SHARE_NAME := PStr "share";
              WORKSPACE := PStr "workspace"; NUM_NODES := PInt 2;
              CLUSTER_NAME := PStr "cluster"; GPU_TYPE := PStr "V100";
              PROCESSES_PER_NODE := PInt 4; USE_FAKE := PBool false;
              DOCKERHUB := PStr "masalvar" |} in
  exists cmd : string,
    last (shell_commands (fst (run p))) = Some cmd
    /\ az_argv cmd = Some ["az"; "group"; "delete"; "--name"; "my"; "group"; "-y"].
Proof.
  intros p.
  destruct (group_name_is_not_quoted p (PInt 8) eq_refl) as (cmd & Hl & _ & _ & _ & H).
  exists cmd. split; [exact Hl |]. exact (H "my" "group" eq_refl eq_refl eq_refl).
Defined.

(** ** The uploaded files *)

Lemma last_three {A : Type} (l : list A) (a b c : A) :
  last (l ++ [a; b; c]) = Some c.
Proof. induction l as [| x [| y l] IH]; try reflexivity. exact IH. Qed.

(** X13. When the file share is handed on unchanged by the shell, [az]
    receives from the four upload lines of a complete run that share, the
    four sources and the path [scripts]; the script that [commandLine] runs
    is the first file uploaded, named by its base name under the input
    directory [SCRIPTS], whose path ends in [scripts]. *)
Theorem uploads_carry_the_training_script (p : params) (tp : pyval) :
  TOTAL_PROCESSES p = Ok tp ->
  is_word (str (FILE_SHARE_NAME p)) = true ->
  let share := str (FILE_SHARE_NAME p) in
  upload_argvs (fst (run p))
  = [ Some ["az"; "storage"; "file"; "upload"; "--share-name"; share;
            "--source"; "src/imagenet_pytorch_horovod.py"; "--path"; "scripts"];
      Some ["az"; "storage"; "file"; "upload"; "--share-name"; share;
            "--source"; "../common/timer.py"; "--path"; "scripts"];
      Some ["az"; "storage"; "file"; "upload"; "--share-name"; share;
            "--source"; "cluster_config/docker.service"; "--path"; "scripts"];
      Some ["az"; "storage"; "file"; "upload"; "--share-name"; share;
            "--source"; "cluster_config/nodeprep.sh"; "--path"; "scripts"] ]
  /\ last (words (commandLine tp (FAKE p)))
     = Some ("$AZ_BATCHAI_INPUT_SCRIPTS/" ++ basename "src/imagenet_pytorch_horovod.py")
  /\ exists path : string,
       descriptor_input_path (jobs_dict p tp) "SCRIPTS" = Some path
       /\ basename path = "scripts".
Proof.
  intros Ht [Hfs Hf']%is_word_spec share. pose proof (JOB_NAME_of_total p _ Ht) as Hj.
  pose proof (safe_plain _ Hfs) as Hfp. pose proof (safe_not_space _ Hfs) as Hf.
  split; [| split].
  - unfold run, notebook, bind, lift, sh, write_json_to_file, emit.
    rewrite Ht, Hj. cbn -[Json.dumps az_argv]. plain_argvs. reflexivity.
  - rewrite words_commandLine_fake, app_assoc.
    change (words fake_tail)
      with ["python"; "-u"; "$AZ_BATCHAI_INPUT_SCRIPTS/imagenet_pytorch_horovod.py"].
    apply last_three.
  - eexists. split; reflexivity.
Qed.

Lemma uploads_carry_the_training_script_tutorial :
  last (words (commandLine (PInt 8) (FAKE tutorial_params)))
  = Some "$AZ_BATCHAI_INPUT_SCRIPTS/imagenet_pytorch_horovod.py"
  /\ length (upload_argvs (fst (run tutorial_params))) = 4%nat.
Proof.
  destruct (uploads_carry_the_training_script tutorial_params (PInt 8) eq_refl eq_refl)
    as (Hu & Hl & _).
  split; [exact Hl | now rewrite Hu].
Defined.

(** ** The resources created and removed *)

(** X12. When the group, the workspace, the cluster and the GPU type are
    handed on unchanged by the shell, the experiment that a complete run
    creates first, named [distributed_pytorch_<GPU type>], is the one it
    deletes, and the cluster, workspace and group it deletes are the
    configured ones, each named with the group it belongs to. *)
Theorem resources_created_are_the_ones_deleted (p : params) (tp : pyval) :
  TOTAL_PROCESSES p = Ok tp ->
  is_word (str (GROUP_NAME p)) = true ->
  is_word (str (WORKSPACE p)) = true ->
  is_word (str (CLUSTER_NAME p)) = true ->
  is_word (str (GPU_TYPE p)) = true ->
  let g := str (GROUP_NAME p) in
  let w := str (WORKSPACE p) in
  let c := str (CLUSTER_NAME p) in
  let e := "distributed_pytorch_" ++ str (GPU_TYPE p) in
  resource_argvs (fst (run p))
  = [ Some ["az"; "batchai"; "experiment"; "create"; "-n"; e; "-g"; g; "-w"; w];
      Some ["az"; "batchai"; "cluster"; "list"; "-w"; w; "-o"; "table"];
      Some ["az"; "batchai"; "cluster"; "delete"; "-w"; w; "--name"; c; "-g"; g; "-y"];
      Some ["az"; "batchai"; "experiment"; "delete"; "-w"; w; "--name"; e; "-g"; g; "-y"];
      Some ["az"; "batchai"; "workspace"; "delete"; "-n"; w; "-g"; g; "-y"];
      Some ["az"; "group"; "delete"; "--name"; g; "-y"] ].
Proof.
  intros Ht [Hgs Hg']%is_word_spec [Hws Hw']%is_word_spec [Hcs Hc']%is_word_spec
    [Hts Ht'']%is_word_spec g w c e.
  pose proof (safe_plain _ Hgs) as Hgp. pose proof (safe_not_space _ Hgs) as Hg.
  pose proof (safe_plain _ Hws) as Hwp. pose proof (safe_not_space _ Hws) as Hw.
  pose proof (safe_plain _ Hcs) as Hcp. pose proof (safe_not_space _ Hcs) as Hc.
  pose proof (safe_plain _ Hts) as Htp. pose proof (safe_not_space _ Hts) as Hgt.
  pose proof (JOB_NAME_of_total p _ Ht) as Hj.
  unfold run, notebook, bind, lift, sh, write_json_to_file, emit, EXPERIMENT.
  rewrite Ht, Hj. cbn -[Json.dumps az_argv]. plain_argvs. reflexivity.
Qed.

Lemma resources_created_are_the_ones_deleted_tutorial :
  resource_argvs (fst (run tutorial_params))
  = [ Some ["az"; "batchai"; "experiment"; "create"; "-n"; "distributed_pytorch_V100";
            "-g"; "batchrg"; "-w"; "workspace"];
      Some ["az"; "batchai"; "cluster"; "list"; "-w"; "workspace"; "-o"; "table"];
      Some ["az"; "batchai"; "cluster"; "delete"; "-w"; "workspace"; "--name"; "cluster";
            "-g"; "batchrg"; "-y"];
      Some ["az"; "batchai"; "experiment"; "delete"; "-w"; "workspace"; "--name";
            "distributed_pytorch_V100"; "-g"; "batchrg"; "-y"];
      Some ["az"; "batchai"; "workspace"; "delete"; "-n"; "workspace"; "-g"; "batchrg";
            "-y"];
      Some ["az"; "group"; "delete"; "--name"; "batchrg"; "-y"] ].
Proof.
  exact (resources_created_are_the_ones_deleted tutorial_params (PInt 8)
           eq_refl eq_refl eq_refl eq_refl eq_refl).
Defined.
